(** * OpenRW: the OpenGL renderer's state cache, streaming buffers and
      profiling scopes (rwengine/src/render/OpenGLRenderer.hpp)

    A shallow embedding of [OpenGLRenderer] and [OpenGLShaderProgram].
    The renderer is a record of its member variables; every member function
    is a computation in a small monad [GL] that threads the object, the
    graphics device and the list of device commands the function issues. *)

From Stdlib Require Import ZArith NArith List String Ascii Bool Lia.
From stdpp Require Import base decidable option list gmap strings.
Import ListNotations.

#[local] Set Warnings "-register-all,-clear-no-such-hyp".
Local Open Scope N_scope.

(** ** Machine integers *)

(** [GLuint] and [unsigned int] are 32 bits wide, [GLuint64] is 64 bits wide;
    both are embedded in [N] and every arithmetic operation on them writes
    its wrap-around out.  [GLint], [GLsizei] and [int] are embedded in [Z]. *)
Abbreviation GLuint := N.
Abbreviation GLuint64 := N.
Abbreviation GLint := Z.
Abbreviation GLsizei := Z.

Definition UINT_MODULUS : N := 2 ^ 32.
Definition UINT64_MODULUS : N := 2 ^ 64.

(** [x++] on an [unsigned int]. *)
Definition uint_incr (x : N) : N := (x + 1) mod UINT_MODULUS.

(** [a - b] on [GLuint64]. *)
Definition uint64_sub (a b : N) : N :=
  (a + UINT64_MODULUS - b mod UINT64_MODULUS) mod UINT64_MODULUS.

(** #define MAX_DEBUG_DEPTH 5 *)
Definition MAX_DEBUG_DEPTH : Z := 5.

(** ** The graphics device *)

Inductive GLCap := GL_BLEND | GL_DEPTH_TEST.

Inductive GLFactor := GL_ONE | GL_SRC_ALPHA | GL_ONE_MINUS_SRC_ALPHA.

Inductive GLCompare := GL_LESS.

(** The commands the renderer sends to the device.  The first group are the
    OpenGL entry points the header calls by name.  The second group are the
    commands of functions whose bodies are not part of the header; they are
    named after the device outputs the specification lists (section 6). *)
Inductive GLCall :=
  | glEnable (cap : GLCap)
  | glDisable (cap : GLCap)
  | glBlendFunc (sfactor dfactor : GLFactor)
  | glDepthFunc (func : GLCompare)
  | glDepthMask (flag : bool)
  | glBindBuffer_UNIFORM (buffer : GLuint)
  | glGetUniformLocation (program : GLuint) (name : string)
  | BindTextureToUnit (tunit tex : GLuint)
  | BindGeometryBuffer (dbuff : N)
  | UploadBufferRegion (buffer slot size : N) (data : list Byte.byte)
  | IndexedDraw (start count : N)
  | BeginTimerQuery
  | EndTimerQuery.

(** The device answers queries (uniform locations, timestamps).  Its answer
    may depend on how many queries it has served so far, so that nothing
    proved below relies on the device answering the same question the same
    way twice. *)
Record Device := {
  respond : nat -> GLCall -> Z;
  served : nat;
}.

(** A device that answers every query with zero. *)
Definition zero_device : Device := {| respond := fun _ _ => 0%Z; served := 0 |}.

(** ** Computations *)

Inductive Fault :=
  | AssertionFailed      (* assert(...) / RW_ASSERT(...) did not hold *)
  | OutOfBounds.         (* an array was indexed outside its extent *)

Inductive Outcome (A : Type) :=
  | Returned (a : A)
  | Aborted (f : Fault).
Arguments Returned {A} a.
Arguments Aborted {A} f.

Record Run (S A : Type) := mkRun {
  outcome : Outcome A;
  object : S;          (* the object after the call *)
  device : Device;     (* the device after the call *)
  calls : list GLCall; (* the device commands issued, oldest first *)
}.
Arguments mkRun {S A}.
Arguments outcome {S A}.
Arguments object {S A}.
Arguments device {S A}.
Arguments calls {S A}.

(** A member function of a class with state [S] returning [A]. *)
Definition GL (S A : Type) : Type := S -> Device -> Run S A.

Definition gl_ret {S A} (a : A) : GL S A :=
  fun s d => mkRun (Returned a) s d [].

(** Sequencing.  A fault ends the computation: what follows is not run, the
    object keeps the state it had when the fault was raised. *)
Definition gl_bind {S A B} (m : GL S A) (k : A -> GL S B) : GL S B :=
  fun s d =>
    let r := m s d in
    match outcome r with
    | Returned a =>
        let r' := k a (object r) (device r) in
        mkRun (outcome r') (object r') (device r') (calls r ++ calls r')
    | Aborted f => mkRun (Aborted f) (object r) (device r) (calls r)
    end.

#[global] Instance GL_ret {S} : MRet (GL S) := @gl_ret S.
#[global] Instance GL_bind {S} : MBind (GL S) := fun A B k m => gl_bind m k.

(** Read a member variable. *)
Definition gets {S A} (f : S -> A) : GL S A :=
  fun s d => mkRun (Returned (f s)) s d [].

(** Assign to member variables. *)
Definition modify {S} (f : S -> S) : GL S unit :=
  fun s d => mkRun (Returned tt) (f s) d [].

Definition abort {S A} (f : Fault) : GL S A :=
  fun s d => mkRun (Aborted f) s d [].

(** Issue a device command that returns nothing. *)
Definition gl {S} (c : GLCall) : GL S unit :=
  fun s d => mkRun (Returned tt) s d [c].

(** Issue a device query and read its answer. *)
Definition gl_query {S} (c : GLCall) : GL S Z :=
  fun s d =>
    mkRun (Returned (respond d (served d) c)) s
          {| respond := respond d; served := Datatypes.S (served d) |} [c].

(** [if (c) body] *)
Definition when {S} (c : bool) (body : GL S unit) : GL S unit :=
  if c then body else mret tt.

(** [assert(c)] *)
Definition assert {S} (c : bool) : GL S unit :=
  if c then mret tt else abort AssertionFailed.

(** ** Enumerations and plain data (OpenGLRenderer.hpp, 57-69, 224-232) *)

Inductive BlendMode := BLEND_NONE | BLEND_ALPHA | BLEND_ADDITIVE.

Inductive DepthMode := OFF | LESS.

#[global] Instance BlendMode_eq_dec : EqDecision BlendMode.
Proof. solve_decision. Defined.

#[global] Instance DepthMode_eq_dec : EqDecision DepthMode.
Proof. solve_decision. Defined.

(** [Renderer::ProfileInfo] *)
Record ProfileInfo := mkProfileInfo {
  timerStart : GLuint64;
  duration : GLuint64;
  primitives : N;
  draws : N;
  textures : N;
  buffers : N;
  uploads : N;
}.

(** [ProfileInfo{}]: every member is value-initialised. *)
Definition ProfileInfo_zero : ProfileInfo := mkProfileInfo 0 0 0 0 0 0 0.

(** [OpenGLRenderer::Buffer] *)
Record Buffer := mkBuffer {
  name : GLuint;
  currentEntry : GLuint;
  entryCount : GLuint;
  entrySize : GLuint;
  bufferSize : GLsizei;
}.

Definition Buffer_zero : Buffer := mkBuffer 0 0 0 0 0%Z.

(** [Renderer::DrawParameters]; the material scalars (colour, ambient,
    diffuse, visibility) reach the device only as bytes of the uniform block
    and are carried as such. *)
Record DrawParameters := mkDrawParameters {
  count : N;
  start : N;
  dp_textures : GLuint * GLuint;   (* std::array<GLuint,2> *)
  dp_blendMode : BlendMode;
  dp_depthMode : DepthMode;
  depthWrite : bool;
  material : list Byte.byte;
}.

(** [Renderer::RenderInstruction]; [dbuff] is the address of the draw
    buffer, [model] the bytes of the transform. *)
Record RenderInstruction := mkRenderInstruction {
  sortKey : N;
  model : list Byte.byte;
  dbuff : N;
  drawInfo : DrawParameters;
}.

(** ** The renderer object (OpenGLRenderer.hpp, 250-253, 346-357, 426-430)

    Pointers are [option]s of addresses, [None] being [nullptr].  The
    profiling members are those of a build with [RW_GRAPHICS_STATS]. *)
Record OpenGLRenderer := mkOpenGLRenderer {
  drawCounter : Z;
  textureCounter : Z;
  bufferCounter : Z;
  UBOObject : Buffer;
  UBOScene : Buffer;
  currentDbuff : option N;
  currentProgram : option N;
  blendMode : BlendMode;
  depthMode : DepthMode;
  depthWriteEnabled : bool;
  currentUBO : GLuint;
  currentUnit : GLuint;
  currentTextures : gmap N N;
  profileInfo : list ProfileInfo;
  currentDebugDepth : Z;
}.

(** The object as its default member initialisers leave it. *)
Definition OpenGLRenderer_default : OpenGLRenderer := {|
  drawCounter := 0; textureCounter := 0; bufferCounter := 0;
  UBOObject := Buffer_zero; UBOScene := Buffer_zero;
  currentDbuff := None; currentProgram := None;
  blendMode := BLEND_NONE; depthMode := OFF; depthWriteEnabled := false;
  currentUBO := 0; currentUnit := 0; currentTextures := ∅;
  profileInfo := replicate (Z.to_nat MAX_DEBUG_DEPTH) ProfileInfo_zero;
  currentDebugDepth := 0;
|}.

(** Assignments to single members. *)
Definition set_drawCounter (v : Z) (r : OpenGLRenderer) : OpenGLRenderer :=
  mkOpenGLRenderer v (textureCounter r) (bufferCounter r) (UBOObject r)
    (UBOScene r) (currentDbuff r) (currentProgram r) (blendMode r)
    (depthMode r) (depthWriteEnabled r) (currentUBO r) (currentUnit r)
    (currentTextures r) (profileInfo r) (currentDebugDepth r).

Definition set_UBOObject (v : Buffer) (r : OpenGLRenderer) : OpenGLRenderer :=
  mkOpenGLRenderer (drawCounter r) (textureCounter r) (bufferCounter r) v
    (UBOScene r) (currentDbuff r) (currentProgram r) (blendMode r)
    (depthMode r) (depthWriteEnabled r) (currentUBO r) (currentUnit r)
    (currentTextures r) (profileInfo r) (currentDebugDepth r).

Definition set_UBOScene (v : Buffer) (r : OpenGLRenderer) : OpenGLRenderer :=
  mkOpenGLRenderer (drawCounter r) (textureCounter r) (bufferCounter r)
    (UBOObject r) v (currentDbuff r) (currentProgram r) (blendMode r)
    (depthMode r) (depthWriteEnabled r) (currentUBO r) (currentUnit r)
    (currentTextures r) (profileInfo r) (currentDebugDepth r).

Definition set_currentDbuff (v : option N) (r : OpenGLRenderer) : OpenGLRenderer :=
  mkOpenGLRenderer (drawCounter r) (textureCounter r) (bufferCounter r)
    (UBOObject r) (UBOScene r) v (currentProgram r) (blendMode r)
    (depthMode r) (depthWriteEnabled r) (currentUBO r) (currentUnit r)
    (currentTextures r) (profileInfo r) (currentDebugDepth r).

Definition set_blendMode (v : BlendMode) (r : OpenGLRenderer) : OpenGLRenderer :=
  mkOpenGLRenderer (drawCounter r) (textureCounter r) (bufferCounter r)
    (UBOObject r) (UBOScene r) (currentDbuff r) (currentProgram r) v
    (depthMode r) (depthWriteEnabled r) (currentUBO r) (currentUnit r)
    (currentTextures r) (profileInfo r) (currentDebugDepth r).

Definition set_depthMode (v : DepthMode) (r : OpenGLRenderer) : OpenGLRenderer :=
  mkOpenGLRenderer (drawCounter r) (textureCounter r) (bufferCounter r)
    (UBOObject r) (UBOScene r) (currentDbuff r) (currentProgram r)
    (blendMode r) v (depthWriteEnabled r) (currentUBO r) (currentUnit r)
    (currentTextures r) (profileInfo r) (currentDebugDepth r).

Definition set_depthWriteEnabled (v : bool) (r : OpenGLRenderer) : OpenGLRenderer :=
  mkOpenGLRenderer (drawCounter r) (textureCounter r) (bufferCounter r)
    (UBOObject r) (UBOScene r) (currentDbuff r) (currentProgram r)
    (blendMode r) (depthMode r) v (currentUBO r) (currentUnit r)
    (currentTextures r) (profileInfo r) (currentDebugDepth r).

Definition set_currentUBO (v : GLuint) (r : OpenGLRenderer) : OpenGLRenderer :=
  mkOpenGLRenderer (drawCounter r) (textureCounter r) (bufferCounter r)
    (UBOObject r) (UBOScene r) (currentDbuff r) (currentProgram r)
    (blendMode r) (depthMode r) (depthWriteEnabled r) v (currentUnit r)
    (currentTextures r) (profileInfo r) (currentDebugDepth r).

Definition set_currentTextures (v : gmap N N) (r : OpenGLRenderer) : OpenGLRenderer :=
  mkOpenGLRenderer (drawCounter r) (textureCounter r) (bufferCounter r)
    (UBOObject r) (UBOScene r) (currentDbuff r) (currentProgram r)
    (blendMode r) (depthMode r) (depthWriteEnabled r) (currentUBO r)
    (currentUnit r) v (profileInfo r) (currentDebugDepth r).

Definition set_profileInfo (v : list ProfileInfo) (r : OpenGLRenderer) : OpenGLRenderer :=
  mkOpenGLRenderer (drawCounter r) (textureCounter r) (bufferCounter r)
    (UBOObject r) (UBOScene r) (currentDbuff r) (currentProgram r)
    (blendMode r) (depthMode r) (depthWriteEnabled r) (currentUBO r)
    (currentUnit r) (currentTextures r) v (currentDebugDepth r).

Definition set_currentDebugDepth (v : Z) (r : OpenGLRenderer) : OpenGLRenderer :=
  mkOpenGLRenderer (drawCounter r) (textureCounter r) (bufferCounter r)
    (UBOObject r) (UBOScene r) (currentDbuff r) (currentProgram r)
    (blendMode r) (depthMode r) (depthWriteEnabled r) (currentUBO r)
    (currentUnit r) (currentTextures r) (profileInfo r) v.

(** ** The state cache (OpenGLRenderer.hpp, 359-401, 416-421) *)

(** [void setBlend(BlendMode mode)].  The [default: assert(false)] arm of the
    switch has no counterpart: [BlendMode] has exactly the three
    enumerators. *)
Definition setBlend (mode : BlendMode) : GL OpenGLRenderer unit :=
  cached ← gets blendMode;
  when (bool_decide (mode ≠ BLEND_NONE) && bool_decide (cached = BLEND_NONE))
    (gl (glEnable GL_BLEND));;
  when (bool_decide (mode ≠ cached))
    (match mode with
     | BLEND_NONE => gl (glDisable GL_BLEND)
     | BLEND_ALPHA => gl (glBlendFunc GL_SRC_ALPHA GL_ONE_MINUS_SRC_ALPHA)
     | BLEND_ADDITIVE => gl (glBlendFunc GL_ONE GL_ONE)
     end);;
  modify (set_blendMode mode).

(** [void setDepthMode(DepthMode mode)] *)
Definition setDepthMode (mode : DepthMode) : GL OpenGLRenderer unit :=
  cached ← gets depthMode;
  when (bool_decide (mode ≠ cached))
    (when (bool_decide (cached = OFF)) (gl (glEnable GL_DEPTH_TEST));;
     match mode with
     | OFF => gl (glDisable GL_DEPTH_TEST)
     | LESS => gl (glDepthFunc GL_LESS)
     end;;
     modify (set_depthMode mode)).

(** [void setDepthWrite(bool enable)] *)
Definition setDepthWrite (enable : bool) : GL OpenGLRenderer unit :=
  cached ← gets depthWriteEnabled;
  when (bool_decide (enable ≠ cached))
    (gl (glDepthMask (if enable then true else false));;
     modify (set_depthWriteEnabled enable)).

(** [void attachUBO(GLuint buffer)] *)
Definition attachUBO (buffer : GLuint) : GL OpenGLRenderer unit :=
  cached ← gets currentUBO;
  when (bool_decide (cached ≠ buffer))
    (gl (glBindBuffer_UNIFORM buffer);;
     modify (set_currentUBO buffer)).

(** ** Functions declared in the header and defined elsewhere

    [useTexture], [useDrawBuffer], [uploadUBOEntry], [pushDebugGroup],
    [popDebugGroup], [draw] and [drawBatched] are declared in the header;
    their bodies are in a translation unit that is not part of the sources.
    Each is modelled from the wording of the specification. *)

(** Modelled from the spec: the body of [useTexture] (declared at line 344).
    Section 4.1: the call "compares the requested state against the cached
    value and only emits the underlying device call when different, then
    updates the cache"; the cache is the "mapping from texture unit to bound
    texture id" (section 3), the device call "bind texture to unit"
    (section 6).  A unit with no entry has no cached value. *)
Definition useTexture (tunit tex : GLuint) : GL OpenGLRenderer unit :=
  cached ← gets (fun r => currentTextures r !! tunit);
  when (bool_decide (cached ≠ Some tex))
    (gl (BindTextureToUnit tunit tex);;
     modify (fun r => set_currentTextures (<[tunit := tex]> (currentTextures r)) r)).

(** Modelled from the spec: the body of [useDrawBuffer] (declared at
    line 342).  Section 4.1 lists "bind-geometry-buffer" with the calls that
    compare against the cache, emit when different and update the cache;
    section 4.3: "binds the geometry buffer if different from cache". *)
Definition useDrawBuffer (dbuff : N) : GL OpenGLRenderer unit :=
  cached ← gets currentDbuff;
  when (bool_decide (cached ≠ Some dbuff))
    (gl (BindGeometryBuffer dbuff);;
     modify (set_currentDbuff (Some dbuff))).



(** A [Buffer&] argument names one of the two buffer members. *)
Inductive BufferRef := RefUBOObject | RefUBOScene.

Definition get_buffer (b : BufferRef) (r : OpenGLRenderer) : Buffer :=
  match b with RefUBOObject => UBOObject r | RefUBOScene => UBOScene r end.

Definition set_buffer (b : BufferRef) (v : Buffer) (r : OpenGLRenderer)
  : OpenGLRenderer :=
  match b with
  | RefUBOObject => set_UBOObject v r
  | RefUBOScene => set_UBOScene v r
  end.

Definition set_currentEntry (v : GLuint) (b : Buffer) : Buffer :=
  mkBuffer (name b) v (entryCount b) (entrySize b) (bufferSize b).

(** Modelled from the spec: the body of [uploadUBOEntry] (declared at
    line 423).  Section 4.2: upload "writes [size] bytes into the slot at
    [currentEntry], fails if [size > entrySize], and advances
    [currentEntry = (currentEntry + 1) mod entryCount] after a successful
    write"; section 7 makes the failure a defensive assertion.  The members
    are [GLuint], so the sum wraps at 32 bits before the remainder is
    taken.  (A remainder by an [entryCount] of zero is undefined in the
    source; [N.modulo] returns its first argument there.) *)
Definition uploadUBOEntry (buffer : BufferRef) (data : list Byte.byte)
    (size : N) : GL OpenGLRenderer unit :=
  b ← gets (get_buffer buffer);
  assert (bool_decide (size ≤ entrySize b));;
  gl (UploadBufferRegion (name b) (currentEntry b) size data);;
  modify (set_buffer buffer
            (set_currentEntry (uint_incr (currentEntry b) mod entryCount b) b)).

(** [profileInfo[i]] read: an index outside the declared extent
    [MAX_DEBUG_DEPTH] is a fault.  (The list has that extent in every
    renderer that satisfies [profiling_ok].) *)
Definition profile_at (i : Z) : GL OpenGLRenderer ProfileInfo :=
  infos ← gets profileInfo;
  if bool_decide (0 ≤ i < MAX_DEBUG_DEPTH)%Z
  then mret (default ProfileInfo_zero (infos !! Z.to_nat i))
  else abort OutOfBounds.

(** [profileInfo[i] = p] *)
Definition profile_store (i : Z) (p : ProfileInfo) : GL OpenGLRenderer unit :=
  if bool_decide (0 ≤ i < MAX_DEBUG_DEPTH)%Z
  then modify (fun r => set_profileInfo (<[Z.to_nat i := p]> (profileInfo r)) r)
  else abort OutOfBounds.

Definition set_timerStart (v : GLuint64) (p : ProfileInfo) : ProfileInfo :=
  mkProfileInfo v (duration p) (primitives p) (draws p) (textures p)
    (buffers p) (uploads p).

Definition set_duration (v : GLuint64) (p : ProfileInfo) : ProfileInfo :=
  mkProfileInfo (timerStart p) v (primitives p) (draws p) (textures p)
    (buffers p) (uploads p).

Definition set_draws (v : N) (p : ProfileInfo) : ProfileInfo :=
  mkProfileInfo (timerStart p) (duration p) (primitives p) v (textures p)
    (buffers p) (uploads p).

Definition set_uploads (v : N) (p : ProfileInfo) : ProfileInfo :=
  mkProfileInfo (timerStart p) (duration p) (primitives p) (draws p)
    (textures p) (buffers p) v.

(** [template <class T> void uploadUBO(Buffer& buffer, const T& data)]
    (lines 403-411), in a build with [RW_GRAPHICS_STATS].  [data] is the
    object representation of the [T], [sizeof(T)] its length. *)
Definition uploadUBO (buffer : BufferRef) (data : list Byte.byte)
  : GL OpenGLRenderer unit :=
  uploadUBOEntry buffer data (N.of_nat (length data));;
  depth ← gets currentDebugDepth;
  when (bool_decide (depth > 0)%Z)
    (p ← profile_at (depth - 1);
     profile_store (depth - 1) (set_uploads (uint_incr (uploads p)) p)).

(** A timestamp read from the device, as a [GLuint64]. *)
Definition to_uint64 (t : Z) : GLuint64 := Z.to_N (t mod Z.of_N UINT64_MODULUS).

(** Modelled from the spec: the body of [pushDebugGroup] (declared at
    line 328).  Section 4.4: push "is valid only if depth < maximum depth
    (5); exceeding it is a fatal precondition violation.  Push resets the
    ProfileInfo at the new depth and starts a GPU timer."  The scope at
    depth [d] owns [profileInfo[d - 1]], as [uploadUBO] indexes it. *)
Definition pushDebugGroup (title : string) : GL OpenGLRenderer unit :=
  depth ← gets currentDebugDepth;
  assert (bool_decide (depth < MAX_DEBUG_DEPTH)%Z);;
  t ← gl_query BeginTimerQuery;
  profile_store depth (set_timerStart (to_uint64 t) ProfileInfo_zero);;
  modify (set_currentDebugDepth (depth + 1)).

(** Modelled from the spec: the body of [popDebugGroup] (declared at
    line 330).  Section 4.4: pop "is valid only if depth > 0; it ends the
    GPU timer, finalizes the ProfileInfo at the current depth, decrements
    depth, and returns a reference to the finalized info". *)
Definition popDebugGroup : GL OpenGLRenderer ProfileInfo :=
  depth ← gets currentDebugDepth;
  assert (bool_decide (depth > 0)%Z);;
  t ← gl_query EndTimerQuery;
  p ← profile_at (depth - 1);
  let final := set_duration (uint64_sub (to_uint64 t) (timerStart p)) p in
  profile_store (depth - 1) final;;
  modify (set_currentDebugDepth (depth - 1));;
  mret final.

(** Modelled from the spec: the body of [draw] (declared at line 319).
    Section 4.3: draw "binds the geometry buffer if different from cache,
    applies blend/depth/depth-write/texture state from [params] via the
    state cache, uploads an ObjectUniformData block built from [model] and
    the material scalars in [params] via the streaming buffer, then issues a
    single indexed draw over [params.start, params.start + params.count).
    Increments the per-frame draw counter and, if a profiling scope is
    active, the current scope's draw/upload counters." *)
Definition draw (model : list Byte.byte) (dbuff : N) (p : DrawParameters)
  : GL OpenGLRenderer unit :=
  useDrawBuffer dbuff;;
  setBlend (dp_blendMode p);;
  setDepthMode (dp_depthMode p);;
  setDepthWrite (depthWrite p);;
  useTexture 0 (fst (dp_textures p));;
  useTexture 1 (snd (dp_textures p));;
  uploadUBO RefUBOObject (model ++ material p);;
  gl (IndexedDraw (start p) (count p));;
  modify (fun r => set_drawCounter (drawCounter r + 1)%Z r);;
  depth ← gets currentDebugDepth;
  when (bool_decide (depth > 0)%Z)
    (i ← profile_at (depth - 1);
     profile_store (depth - 1) (set_draws (uint_incr (draws i)) i)).

(** Modelled from the spec: the body of [drawBatched] (declared at
    line 324).  Section 4.3: it "iterates the pre-sorted instruction
    sequence and applies [draw] semantics per instruction"; "an empty
    instruction list is a no-op". *)
Fixpoint drawBatched (l : list RenderInstruction) : GL OpenGLRenderer unit :=
  match l with
  | [] => mret tt
  | i :: l' => draw (model i) (dbuff i) (drawInfo i);; drawBatched l'
  end.

(** ** The shader program (OpenGLRenderer.hpp, 258-285) *)

Record OpenGLShaderProgram := mkOpenGLShaderProgram {
  program : GLuint;
  uniforms : gmap string Z;   (* std::map<std::string, GLint> *)
}.

(** [std::string(s.c_str())]: a C string ends at its first NUL character,
    so the conversion keeps the characters before it. *)
Fixpoint c_str (s : string) : string :=
  match s with
  | EmptyString => EmptyString
  | String c s' =>
      if Ascii.eqb c Ascii.zero then EmptyString else String c (c_str s')
  end.

(** [GLint getUniformLocation(const std::string& name)].  [find] is given
    [name.c_str()], from which the key is built; the device is asked about
    [name.c_str()]; the result is stored under [name] itself. *)
Definition getUniformLocation (name : string) : GL OpenGLShaderProgram GLint :=
  c ← gets (fun p => uniforms p !! c_str name);
  match c with
  | None =>
      prog ← gets program;
      loc ← gl_query (glGetUniformLocation prog (c_str name));
      modify (fun p => mkOpenGLShaderProgram (program p)
                         (<[name := loc]> (uniforms p)));;
      mret loc
  | Some stored => mret stored
  end.

(** A sequence of lookups whose results are dropped. *)
Fixpoint lookupAll (names : list string) : GL OpenGLShaderProgram unit :=
  match names with
  | [] => mret tt
  | n :: names' => getUniformLocation n;; lookupAll names'
  end.

(** The name is a C string: it has no NUL character before its end. *)
Definition is_c_string (name : string) : Prop := c_str name = name.

(** ** Vocabulary of the statements *)

(** Number of commands of a trace that satisfy [p]. *)
Definition tally (p : GLCall -> bool) (t : list GLCall) : nat :=
  length (List.filter p t).

Definition is_blend_enable (c : GLCall) : bool :=
  match c with glEnable GL_BLEND => true | _ => false end.

Definition is_depth_test_enable (c : GLCall) : bool :=
  match c with glEnable GL_DEPTH_TEST => true | _ => false end.

Definition is_blend_func (c : GLCall) : bool :=
  match c with glBlendFunc _ _ => true | _ => false end.

Definition is_buffer_bind (c : GLCall) : bool :=
  match c with BindGeometryBuffer _ => true | _ => false end.

(** The commands the pair-of-draws example counts. *)
Definition watched (c : GLCall) : bool :=
  is_buffer_bind c || is_blend_enable c || is_blend_func c.

(** The device call that selects a blend mode, and the one that selects a
    depth mode: the arms of the two switches. *)
Definition blend_mode_call (mode : BlendMode) : GLCall :=
  match mode with
  | BLEND_NONE => glDisable GL_BLEND
  | BLEND_ALPHA => glBlendFunc GL_SRC_ALPHA GL_ONE_MINUS_SRC_ALPHA
  | BLEND_ADDITIVE => glBlendFunc GL_ONE GL_ONE
  end.

Definition depth_mode_call (mode : DepthMode) : GLCall :=
  match mode with
  | OFF => glDisable GL_DEPTH_TEST
  | LESS => glDepthFunc GL_LESS
  end.

(** A call of one of the four state setters. *)
Inductive StateCall :=
  | CallSetBlend (mode : BlendMode)
  | CallSetDepthMode (mode : DepthMode)
  | CallSetDepthWrite (enable : bool)
  | CallUseTexture (tunit tex : GLuint).

Definition perform (c : StateCall) : GL OpenGLRenderer unit :=
  match c with
  | CallSetBlend mode => setBlend mode
  | CallSetDepthMode mode => setDepthMode mode
  | CallSetDepthWrite enable => setDepthWrite enable
  | CallUseTexture tunit tex => useTexture tunit tex
  end.

Fixpoint performAll (cs : list StateCall) : GL OpenGLRenderer unit :=
  match cs with
  | [] => mret tt
  | c :: cs' => perform c;; performAll cs'
  end.

(** The requested value differs from the value cached for the call's slot. *)
Definition differs (c : StateCall) (r : OpenGLRenderer) : bool :=
  match c with
  | CallSetBlend mode => bool_decide (mode ≠ blendMode r)
  | CallSetDepthMode mode => bool_decide (mode ≠ depthMode r)
  | CallSetDepthWrite enable => bool_decide (enable ≠ depthWriteEnabled r)
  | CallUseTexture tunit tex => bool_decide (currentTextures r !! tunit ≠ Some tex)
  end.

(** The call switches blending or the depth test on: the cached mode is
    NONE (OFF) and the requested one is not. *)
Definition switches_on (c : StateCall) (r : OpenGLRenderer) : bool :=
  match c with
  | CallSetBlend mode =>
      bool_decide (mode ≠ BLEND_NONE) && bool_decide (blendMode r = BLEND_NONE)
  | CallSetDepthMode mode =>
      bool_decide (mode ≠ OFF) && bool_decide (depthMode r = OFF)
  | _ => false
  end.

(** Number of calls of a sequence for which [p] holds of the call and the
    renderer at the time of the call. *)
Fixpoint calls_where (p : StateCall -> OpenGLRenderer -> bool)
    (cs : list StateCall) (r : OpenGLRenderer) (d : Device) : nat :=
  match cs with
  | [] => 0
  | c :: cs' =>
      let run := perform c r d in
      (if p c r then 1 else 0) + calls_where p cs' (object run) (device run)
  end%nat.

(** *** Profiling scopes *)

(** The operations a scope counts. *)
Inductive Op :=
  | OpDraw (i : RenderInstruction)
  | OpUpload (buffer : BufferRef) (data : list Byte.byte).

Definition doOp (o : Op) : GL OpenGLRenderer unit :=
  match o with
  | OpDraw i => draw (model i) (dbuff i) (drawInfo i)
  | OpUpload buffer data => uploadUBO buffer data
  end.

Inductive ScopeEvent :=
  | EvPush (title : string)
  | EvPop
  | EvOp (o : Op).

(** Replays a sequence of calls and collects what each [popDebugGroup]
    returned, in the order of the pops. *)
Fixpoint replay (es : list ScopeEvent) : GL OpenGLRenderer (list ProfileInfo) :=
  match es with
  | [] => mret []
  | EvPush title :: es' => pushDebugGroup title;; replay es'
  | EvPop :: es' => p ← popDebugGroup; ps ← replay es'; mret (p :: ps)
  | EvOp o :: es' => doOp o;; replay es'
  end.

(** The slot sizes of the two uniform buffers. *)
Definition slot_sizes (r : OpenGLRenderer) : N * N :=
  (entrySize (UBOObject r), entrySize (UBOScene r)).

Definition slot_size (sz : N * N) (b : BufferRef) : N :=
  match b with RefUBOObject => fst sz | RefUBOScene => snd sz end.

(** The uniform block of an operation fits a slot of its buffer. *)
Definition op_fits (sz : N * N) (o : Op) : Prop :=
  match o with
  | OpDraw i =>
      N.of_nat (length (model i ++ material (drawInfo i)))
        ≤ slot_size sz RefUBOObject
  | OpUpload buffer data => N.of_nat (length data) ≤ slot_size sz buffer
  end.

(** The profiling members are well formed: the array has its declared
    extent and the depth is within it. *)
Definition profiling_ok (r : OpenGLRenderer) : Prop :=
  length (profileInfo r) = Z.to_nat MAX_DEBUG_DEPTH
  ∧ (0 ≤ currentDebugDepth r ≤ MAX_DEBUG_DEPTH)%Z.

(** The depth is within the extent of the array. *)
Definition in_bounds (r : OpenGLRenderer) : Prop :=
  (0 ≤ currentDebugDepth r ≤ MAX_DEBUG_DEPTH)%Z.

(** The cached geometry buffer and blend mode. *)
Definition cache_key (r : OpenGLRenderer) : option N * BlendMode :=
  (currentDbuff r, blendMode r).

(** The device commands with which a draw binds its buffer and sets its
    blend mode, from the cached buffer and blend mode: those of
    [useDrawBuffer] followed by those of [setBlend]. *)
Definition draw_head_calls (cached : option N * BlendMode) (dbuff : N)
    (mode : BlendMode) : list GLCall :=
  (if bool_decide (fst cached ≠ Some dbuff) then [BindGeometryBuffer dbuff] else [])
  ++ (if bool_decide (snd cached = BLEND_NONE ∧ mode ≠ BLEND_NONE)
      then [glEnable GL_BLEND] else [])
  ++ (if bool_decide (mode ≠ snd cached) then [blend_mode_call mode] else []).

(** What the profiling code reads of a renderer. *)
Definition profile_view (r : OpenGLRenderer) : list ProfileInfo * Z * (N * N) :=
  (profileInfo r, currentDebugDepth r, slot_sizes r).

(** [nd] times [draws++] and [nu] times [uploads++]. *)
Definition bump_counters (nd nu : nat) (p : ProfileInfo) : ProfileInfo :=
  set_draws (Nat.iter nd uint_incr (draws p))
    (set_uploads (Nat.iter nu uint_incr (uploads p)) p).

(** The statistics block of [uploadUBO] and [draw]:
    [if (currentDebugDepth > 0) profileInfo[currentDebugDepth - 1].x++]. *)
Definition profile_bump (g : ProfileInfo -> ProfileInfo) : GL OpenGLRenderer unit :=
  depth ← gets currentDebugDepth;
  when (bool_decide (depth > 0)%Z)
    (p ← profile_at (depth - 1); profile_store (depth - 1) (g p)).

(** The array after the scope at depth [k] has counted [nd] draws and [nu]
    uploads: slot [k - 1] is bumped, nothing is counted at depth 0. *)
Definition bump_slot (k nd nu : nat) (infos : list ProfileInfo)
  : list ProfileInfo :=
  match k with
  | O => infos
  | Datatypes.S j =>
      <[j := bump_counters nd nu (default ProfileInfo_zero (infos !! j))]> infos
  end.

(** The renderer shows the array [infos], the depth [k] and the slot sizes
    [sz]. *)
Definition viewed (infos : list ProfileInfo) (k : nat) (sz : N * N)
    (r : OpenGLRenderer) : Prop :=
  profile_view r = (infos, Z.of_nat k, sz).

(** *** Streaming buffers *)

(** A buffer whose members satisfy the invariant of section 3. *)
Definition buffer_ok (b : Buffer) : Prop :=
  0 < entryCount b ∧ entryCount b < UINT_MODULUS ∧ currentEntry b < entryCount b.

(** A sequence of uploads into one buffer, each a block and a size. *)
Fixpoint uploadAll (buffer : BufferRef) (us : list (list Byte.byte * N))
  : GL OpenGLRenderer unit :=
  match us with
  | [] => mret tt
  | (data, size) :: us' => uploadUBOEntry buffer data size;; uploadAll buffer us'
  end.

(** *** Frames *)

(** [m] leaves the projection [f] of the object as it was, whether it
    returns or faults. *)
Definition preserves {S A B} (f : S -> B) (m : GL S A) : Prop :=
  ∀ s d, f (object (m s d)) = f s.

(** [m] always returns. *)
Definition total {S A} (m : GL S A) : Prop :=
  ∀ s d, ∃ a, outcome (m s d) = Returned a.

(** From a state that satisfies [P], [m] returns, with a value and a state
    that satisfy [Q]. *)
Definition hoare {S A} (P : S -> Prop) (m : GL S A) (Q : A -> S -> Prop) : Prop :=
  ∀ s d, P s -> ∃ a s' d' cs, m s d = mkRun (Returned a) s' d' cs ∧ Q a s'.

(** From a renderer whose depth is within bounds [m] never indexes the
    profiling array outside its extent, and it leaves the depth within
    bounds, whether it returns or fails an assertion. *)
Definition bounded {A} (m : GL OpenGLRenderer A) : Prop :=
  ∀ r d, in_bounds r ->
    outcome (m r d) ≠ Aborted OutOfBounds ∧ in_bounds (object (m r d)).

(** [m] issues no command that satisfies [p]. *)
Definition quiet {S A} (p : GLCall -> bool) (m : GL S A) : Prop :=
  ∀ s d, tally p (calls (m s d)) = 0%nat.

(** *** Sample objects *)

(** A buffer of three slots of 96 bytes with the cursor on the second. *)
Definition sample_buffer : Buffer := mkBuffer 1 1 3 96 288%Z.

(** The default renderer with both uniform buffers created. *)
Definition sample_renderer : OpenGLRenderer :=
  set_UBOScene sample_buffer (set_UBOObject sample_buffer OpenGLRenderer_default).

(** A block of [n] zero bytes. *)
Definition zeros (n : nat) : list Byte.byte := replicate n Byte.x00.

(** A device that answers its [n]-th query with [n]. *)
Definition counting_device : Device :=
  {| respond := fun n _ => Z.of_nat n; served := 0 |}.

(** The name [a], NUL, [b]. *)
Definition name_with_nul : string :=
  String "a" (String Ascii.zero (String "b" EmptyString)).

(** A freshly linked program: nothing is cached. *)
Definition fresh_program : OpenGLShaderProgram := mkOpenGLShaderProgram 1 ∅.

(** An indexed draw of buffer 7 with the given blend mode; its uniform
    block has 64 + 28 = 92 bytes. *)
Definition sample_draw (mode : BlendMode) : RenderInstruction :=
  mkRenderInstruction 0 (zeros 64) 7
    (mkDrawParameters 6 0 (3, 0) mode LESS true (zeros 28)).

(** ** Further vocabulary: the device's state and the cached setters *)

(** The part of the OpenGL state the commands of the cached setters act
    on: the blend and depth-test capabilities, the blend factors, the depth
    write mask and the buffer bound to [GL_UNIFORM_BUFFER].  ([glDepthFunc]
    is only ever issued with [GL_LESS], the one comparison the renderer
    uses; the depth function is not tracked.) *)
Record DeviceState := mkDeviceState {
  dev_blend : bool;
  dev_blend_func : GLFactor * GLFactor;
  dev_depth_test : bool;
  dev_depth_mask : bool;
  dev_uniform_buffer : GLuint;
}.

(** What a command does to that state, as OpenGL defines [glEnable],
    [glDisable], [glBlendFunc], [glDepthMask] and [glBindBuffer]. *)
Definition gl_apply (s : DeviceState) (c : GLCall) : DeviceState :=
  match c with
  | glEnable GL_BLEND =>
      mkDeviceState true (dev_blend_func s) (dev_depth_test s)
        (dev_depth_mask s) (dev_uniform_buffer s)
  | glDisable GL_BLEND =>
      mkDeviceState false (dev_blend_func s) (dev_depth_test s)
        (dev_depth_mask s) (dev_uniform_buffer s)
  | glEnable GL_DEPTH_TEST =>
      mkDeviceState (dev_blend s) (dev_blend_func s) true
        (dev_depth_mask s) (dev_uniform_buffer s)
  | glDisable GL_DEPTH_TEST =>
      mkDeviceState (dev_blend s) (dev_blend_func s) false
        (dev_depth_mask s) (dev_uniform_buffer s)
  | glBlendFunc sfactor dfactor =>
      mkDeviceState (dev_blend s) (sfactor, dfactor) (dev_depth_test s)
        (dev_depth_mask s) (dev_uniform_buffer s)
  | glDepthMask flag =>
      mkDeviceState (dev_blend s) (dev_blend_func s) (dev_depth_test s)
        flag (dev_uniform_buffer s)
  | glBindBuffer_UNIFORM buffer =>
      mkDeviceState (dev_blend s) (dev_blend_func s) (dev_depth_test s)
        (dev_depth_mask s) buffer
  | _ => s
  end.

(** The device state after a trace of commands. *)
Definition gl_run (t : list GLCall) (s : DeviceState) : DeviceState :=
  fold_left gl_apply t s.

(** The blend factors a blend mode selects (the arguments of [glBlendFunc]
    in the switch of [setBlend]). *)
Definition blend_factors (mode : BlendMode) : GLFactor * GLFactor :=
  match mode with
  | BLEND_ADDITIVE => (GL_ONE, GL_ONE)
  | _ => (GL_SRC_ALPHA, GL_ONE_MINUS_SRC_ALPHA)
  end.

(** The cache tells the truth about the device: blending is enabled exactly
    when the cached mode is not NONE, with the factors of the cached mode;
    the depth test is enabled exactly when the cached mode is not OFF; the
    depth mask and the uniform buffer binding are the cached ones. *)
Definition coherent (r : OpenGLRenderer) (s : DeviceState) : Prop :=
  dev_blend s = bool_decide (blendMode r ≠ BLEND_NONE)
  ∧ (blendMode r ≠ BLEND_NONE -> dev_blend_func s = blend_factors (blendMode r))
  ∧ dev_depth_test s = bool_decide (depthMode r ≠ OFF)
  ∧ dev_depth_mask s = depthWriteEnabled r
  ∧ dev_uniform_buffer s = currentUBO r.

(** A call of one of the four setters the header defines. *)
Inductive CacheCall :=
  | CacheSetBlend (mode : BlendMode)
  | CacheSetDepthMode (mode : DepthMode)
  | CacheSetDepthWrite (enable : bool)
  | CacheAttachUBO (buffer : GLuint).

Definition cache_call (c : CacheCall) : GL OpenGLRenderer unit :=
  match c with
  | CacheSetBlend mode => setBlend mode
  | CacheSetDepthMode mode => setDepthMode mode
  | CacheSetDepthWrite enable => setDepthWrite enable
  | CacheAttachUBO buffer => attachUBO buffer
  end.

Fixpoint cache_calls (cs : list CacheCall) : GL OpenGLRenderer unit :=
  match cs with
  | [] => mret tt
  | c :: cs' => cache_call c;; cache_calls cs'
  end.

(** The value a call requests is the one in effect on the device. *)
Definition in_effect (c : CacheCall) (s : DeviceState) : Prop :=
  match c with
  | CacheSetBlend mode =>
      dev_blend s = bool_decide (mode ≠ BLEND_NONE)
      ∧ (mode ≠ BLEND_NONE -> dev_blend_func s = blend_factors mode)
  | CacheSetDepthMode mode => dev_depth_test s = bool_decide (mode ≠ OFF)
  | CacheSetDepthWrite enable => dev_depth_mask s = enable
  | CacheAttachUBO buffer => dev_uniform_buffer s = buffer
  end.

(** The renderer a call leaves: the member of its slot holds the requested
    value. *)
Definition cache_store (c : CacheCall) (r : OpenGLRenderer) : OpenGLRenderer :=
  match c with
  | CacheSetBlend mode => set_blendMode mode r
  | CacheSetDepthMode mode => set_depthMode mode r
  | CacheSetDepthWrite enable => set_depthWriteEnabled enable r
  | CacheAttachUBO buffer => set_currentUBO buffer r
  end.

(** The device commands a call issues, from the cached members. *)
Definition cache_emits (c : CacheCall) (r : OpenGLRenderer) : list GLCall :=
  match c with
  | CacheSetBlend mode =>
      (if bool_decide (blendMode r = BLEND_NONE ∧ mode ≠ BLEND_NONE)
       then [glEnable GL_BLEND] else [])
      ++ (if bool_decide (mode ≠ blendMode r) then [blend_mode_call mode] else [])
  | CacheSetDepthMode mode =>
      (if bool_decide (depthMode r = OFF ∧ mode ≠ OFF)
       then [glEnable GL_DEPTH_TEST] else [])
      ++ (if bool_decide (mode ≠ depthMode r) then [depth_mode_call mode] else [])
  | CacheSetDepthWrite enable =>
      if bool_decide (enable ≠ depthWriteEnabled r) then [glDepthMask enable] else []
  | CacheAttachUBO buffer =>
      if bool_decide (currentUBO r ≠ buffer) then [glBindBuffer_UNIFORM buffer] else []
  end.

(** The member a setter caches its argument in. *)
Inductive CacheSlot := SlotBlend | SlotDepthMode | SlotDepthWrite | SlotUBO.

Definition slot_of (c : CacheCall) : CacheSlot :=
  match c with
  | CacheSetBlend _ => SlotBlend
  | CacheSetDepthMode _ => SlotDepthMode
  | CacheSetDepthWrite _ => SlotDepthWrite
  | CacheAttachUBO _ => SlotUBO
  end.

(** The command asks the device for a uniform location of program [prog]. *)
Definition is_location_query (prog : GLuint) (c : GLCall) : Prop :=
  ∃ name, c = glGetUniformLocation prog name.

(** The cached members as the default cache and a device agree on them. *)
Definition sample_device_state : DeviceState :=
  mkDeviceState false (GL_ONE, GL_ONE) false false 0.

(** [uploadUBO] (lines 403-411) with the upload it starts with as a
    parameter: [uploadUBOEntry] is defined outside the header, the
    statistics that follow it are not. *)
Definition uploadUBO_via (upload : GL OpenGLRenderer unit)
  : GL OpenGLRenderer unit :=
  upload;;
  depth ← gets currentDebugDepth;
  when (bool_decide (depth > 0)%Z)
    (p ← profile_at (depth - 1);
     profile_store (depth - 1) (set_uploads (uint_incr (uploads p)) p)).

(** [uploads++] on the profile info of slot [j]. *)
Definition count_upload (j : nat) (infos : list ProfileInfo) : list ProfileInfo :=
  let p := default ProfileInfo_zero (infos !! j) in
  <[j := set_uploads (uint_incr (uploads p)) p]> infos.

(** [n] times [uploads++] on the profile info of the scope at depth [k];
    nothing at depth 0. *)
Definition count_uploads (n k : nat) (infos : list ProfileInfo)
  : list ProfileInfo :=
  match k with
  | O => infos
  | Datatypes.S j =>
      let p := default ProfileInfo_zero (infos !! j) in
      <[j := set_uploads (Nat.iter n uint_incr (uploads p)) p]> infos
  end.

(** [n] calls of [uploadUBO] in a row. *)
Fixpoint upload_times (n : nat) (upload : GL OpenGLRenderer unit)
  : GL OpenGLRenderer unit :=
  match n with
  | O => mret tt
  | Datatypes.S n' => uploadUBO_via upload;; upload_times n' upload
  end.

(** The members the statistics of [uploadUBO] read. *)
Definition scope_view (r : OpenGLRenderer) : list ProfileInfo * Z :=
  (profileInfo r, currentDebugDepth r).

(** From every renderer that satisfies [I] the upload returns, leaves the
    profiling members as they were and keeps [I]. *)
Definition upload_succeeds (I : OpenGLRenderer -> Prop)
    (upload : GL OpenGLRenderer unit) : Prop :=
  ∀ r d, I r ->
    (∃ a, outcome (upload r d) = Returned a)
    ∧ scope_view (object (upload r d)) = scope_view r
    ∧ I (object (upload r d)).

(** [I] does not depend on the profiling array. *)
Definition apart_from_statistics (I : OpenGLRenderer -> Prop) : Prop :=
  ∀ r infos, I r -> I (set_profileInfo infos r).

(** The uniform buffer [buffer] has slots of at least [size] bytes. *)
Definition slot_holds (buffer : BufferRef) (size : N) (r : OpenGLRenderer)
  : Prop :=
  size ≤ entrySize (get_buffer buffer r).

(** The sample renderer inside two open scopes. *)
Definition renderer_at_depth_two : OpenGLRenderer :=
  set_currentDebugDepth 2 sample_renderer.

(** ** Tactics *)

(** Reduces a state setter applied to a renderer whose members are
    variables, splitting on every comparison it makes. *)
Ltac run_setter :=
  cbv [setBlend setDepthMode setDepthWrite attachUBO useTexture useDrawBuffer
       perform mbind mret GL_bind GL_ret gl_bind gl_ret gets modify gl when
       outcome object device calls];
  cbn [blendMode depthMode depthWriteEnabled currentUBO currentTextures
       currentDbuff];
  repeat case_bool_decide; cbn.

(** Settles the first comparison of the goal by linear arithmetic. *)
Ltac decide_true :=
  match goal with
  | |- context [@bool_decide ?P ?dec] =>
      rewrite (@bool_decide_eq_true_2 P dec) by (unfold MAX_DEBUG_DEPTH in *; lia)
  end.

Ltac decide_false :=
  match goal with
  | |- context [@bool_decide ?P ?dec] =>
      rewrite (@bool_decide_eq_false_2 P dec) by (unfold MAX_DEBUG_DEPTH in *; lia)
  end.

(** Proves that a state setter always returns and touches none of the
    members the profiling code reads. *)
Ltac setter_neutral :=
  split; [intros [] d; run_setter; eexists; reflexivity
         |intros [] d; run_setter; reflexivity].

(** Reduces a computation whose comparisons are left undecided, splitting
    on each. *)
Ltac run_cases :=
  cbv [uploadUBOEntry profile_bump profile_at profile_store assert abort when
       mbind mret GL_bind GL_ret gl_bind gl_ret gets modify gl
       outcome object device calls];
  repeat match goal with
         | |- context [@bool_decide ?P ?dec] =>
             destruct (@bool_decide P dec);
             cbn [outcome object device calls app]
         end.

(** * Properties *)

(** ** Sequencing *)

Lemma tally_app p (t1 t2 : list GLCall) :
  tally p (t1 ++ t2) = (tally p t1 + tally p t2)%nat.
Proof. unfold tally. now rewrite List.filter_app, length_app. Qed.

Section Sequencing.
Context {S A B : Type}.
Implicit Types (m : GL S A) (k : A -> GL S B).

Lemma bind_unfold m k s d : (m ≫= k) s d = gl_bind m k s d.
Proof. reflexivity. Qed.

Lemma bind_returned m k s d a :
  outcome (m s d) = Returned a ->
  (m ≫= k) s d =
    let r := k a (object (m s d)) (device (m s d)) in
    mkRun (outcome r) (object r) (device r) (calls (m s d) ++ calls r).
Proof. intros H. rewrite bind_unfold. unfold gl_bind. now rewrite H. Qed.

Lemma bind_aborted m k s d f :
  outcome (m s d) = Aborted f ->
  (m ≫= k) s d =
    mkRun (Aborted f) (object (m s d)) (device (m s d)) (calls (m s d)).
Proof. intros H. rewrite bind_unfold. unfold gl_bind. now rewrite H. Qed.

Lemma preserves_bind {C} (f : S -> C) m k :
  preserves f m -> (forall a, preserves f (k a)) -> preserves f (m ≫= k).
Proof.
  intros Hm Hk s d. rewrite bind_unfold. unfold gl_bind.
  destruct (outcome (m s d)) as [a|e]; simpl.
  - now rewrite Hk, Hm.
  - apply Hm.
Qed.

Lemma total_bind m k :
  total m -> (forall a, total (k a)) -> total (m ≫= k).
Proof.
  intros Hm Hk s d. destruct (Hm s d) as [a Ha].
  rewrite (bind_returned _ _ _ _ _ Ha). simpl. apply Hk.
Qed.

Lemma quiet_bind p m k :
  quiet p m -> (forall a, quiet p (k a)) -> quiet p (m ≫= k).
Proof.
  intros Hm Hk s d. rewrite bind_unfold. unfold gl_bind.
  destruct (outcome (m s d)) as [a|e]; simpl.
  - rewrite tally_app, (Hm s d). apply Hk.
  - apply Hm.
Qed.
End Sequencing.

(** ** The state cache *)

Lemma setBlend_calls mode r d :
  calls (setBlend mode r d) =
    (if bool_decide (blendMode r = BLEND_NONE ∧ mode ≠ BLEND_NONE)
     then [glEnable GL_BLEND] else [])
    ++ (if bool_decide (mode ≠ blendMode r) then [blend_mode_call mode] else []).
Proof.
  destruct r; run_setter; destruct mode; cbn; try reflexivity; intuition congruence.
Qed.

Lemma setDepthMode_calls mode r d :
  calls (setDepthMode mode r d) =
    (if bool_decide (depthMode r = OFF ∧ mode ≠ OFF)
     then [glEnable GL_DEPTH_TEST] else [])
    ++ (if bool_decide (mode ≠ depthMode r) then [depth_mode_call mode] else []).
Proof.
  destruct r; run_setter; destruct mode; cbn; try reflexivity; intuition congruence.
Qed.

Lemma setDepthWrite_calls enable r d :
  calls (setDepthWrite enable r d) =
    if bool_decide (enable ≠ depthWriteEnabled r) then [glDepthMask enable] else [].
Proof. destruct r; run_setter; destruct enable; reflexivity. Qed.

Lemma useTexture_calls tunit tex r d :
  calls (useTexture tunit tex r d) =
    if bool_decide (currentTextures r !! tunit ≠ Some tex)
    then [BindTextureToUnit tunit tex] else [].
Proof. destruct r; run_setter; reflexivity. Qed.

Lemma perform_returns c r d : outcome (perform c r d) = Returned tt.
Proof. destruct c, r; run_setter; try destruct mode; reflexivity. Qed.

Lemma perform_calls_length c r d :
  length (calls (perform c r d)) =
    ((if differs c r then 1 else 0) + (if switches_on c r then 1 else 0))%nat.
Proof.
  destruct c as [mode|mode|enable|tunit tex]; cbn [perform differs switches_on].
  - rewrite setBlend_calls, length_app.
    destruct mode, (blendMode r); reflexivity.
  - rewrite setDepthMode_calls, length_app.
    destruct mode, (depthMode r); reflexivity.
  - rewrite setDepthWrite_calls. case_bool_decide; reflexivity.
  - rewrite useTexture_calls. case_bool_decide; reflexivity.
Qed.

Lemma perform_silent_iff c r d :
  calls (perform c r d) = [] <-> differs c r = false.
Proof.
  pose proof (perform_calls_length c r d) as H.
  destruct (differs c r) eqn:E.
  - split; [intros H0; rewrite H0 in H; cbn in H; lia | discriminate].
  - split; [reflexivity | intros _].
    assert (switches_on c r = false) as E'.
    { destruct c as [mode|mode| |]; cbn in *; try reflexivity.
      - apply bool_decide_eq_false in E. apply dec_stable in E. subst.
        destruct (blendMode r); reflexivity.
      - apply bool_decide_eq_false in E. apply dec_stable in E. subst.
        destruct (depthMode r); reflexivity. }
    rewrite E' in H. cbn in H. now apply length_zero_iff_nil.
Qed.

Lemma performAll_calls_length cs : forall r d,
  length (calls (performAll cs r d)) =
    (calls_where differs cs r d + calls_where switches_on cs r d)%nat.
Proof.
  induction cs as [|c cs IH]; intros r d; [reflexivity|].
  cbn [performAll calls_where].
  rewrite (bind_returned _ _ _ _ _ (perform_returns c r d)). cbn [calls].
  rewrite length_app, perform_calls_length, IH. lia.
Qed.

(** C2.  [setBlend] issues [glEnable(GL_BLEND)] exactly when the cached mode
    is NONE and the requested mode is not, once and whichever mode is
    requested; [setDepthMode] issues [glEnable(GL_DEPTH_TEST)] exactly when
    the cached mode is OFF and the requested mode is not.  The call that
    selects the mode follows exactly when the requested mode differs from
    the cached mode, compared as whole values. *)
Theorem C2_enable_toggles :
  forall (r : OpenGLRenderer) (d : Device),
    (forall mode,
       calls (setBlend mode r d) =
         (if bool_decide (blendMode r = BLEND_NONE ∧ mode ≠ BLEND_NONE)
          then [glEnable GL_BLEND] else [])
         ++ (if bool_decide (mode ≠ blendMode r)
             then [blend_mode_call mode] else []))
    ∧ (forall mode,
         calls (setDepthMode mode r d) =
           (if bool_decide (depthMode r = OFF ∧ mode ≠ OFF)
            then [glEnable GL_DEPTH_TEST] else [])
           ++ (if bool_decide (mode ≠ depthMode r)
               then [depth_mode_call mode] else []))
    ∧ (forall mode,
         tally is_blend_enable (calls (setBlend mode r d)) =
           if bool_decide (blendMode r = BLEND_NONE ∧ mode ≠ BLEND_NONE)
           then 1%nat else 0%nat)
    ∧ (forall mode,
         tally is_depth_test_enable (calls (setDepthMode mode r d)) =
           if bool_decide (depthMode r = OFF ∧ mode ≠ OFF)
           then 1%nat else 0%nat).
Proof.
  intros r d. repeat split; intros mode.
  - apply setBlend_calls.
  - apply setDepthMode_calls.
  - rewrite setBlend_calls. destruct mode, (blendMode r); reflexivity.
  - rewrite setDepthMode_calls. destruct mode, (depthMode r); reflexivity.
Qed.

(** C9.  When [setBlend], [setDepthMode], [setDepthWrite] or [attachUBO]
    returns, the cached member of its slot holds the requested value,
    whether or not a device command was issued, and the members of the other
    three slots are as they were: each slot records the value requested
    last. *)
Theorem C9_cache_coherence :
  forall (r : OpenGLRenderer) (d : Device),
    (forall mode,
       outcome (setBlend mode r d) = Returned tt
       ∧ blendMode (object (setBlend mode r d)) = mode)
    ∧ (forall mode,
         outcome (setDepthMode mode r d) = Returned tt
         ∧ depthMode (object (setDepthMode mode r d)) = mode)
    ∧ (forall enable,
         outcome (setDepthWrite enable r d) = Returned tt
         ∧ depthWriteEnabled (object (setDepthWrite enable r d)) = enable)
    ∧ (forall buffer,
         outcome (attachUBO buffer r d) = Returned tt
         ∧ currentUBO (object (attachUBO buffer r d)) = buffer)
    ∧ (forall mode,
         let r' := object (setBlend mode r d) in
         depthMode r' = depthMode r
         ∧ depthWriteEnabled r' = depthWriteEnabled r
         ∧ currentUBO r' = currentUBO r)
    ∧ (forall mode,
         let r' := object (setDepthMode mode r d) in
         blendMode r' = blendMode r
         ∧ depthWriteEnabled r' = depthWriteEnabled r
         ∧ currentUBO r' = currentUBO r)
    ∧ (forall enable,
         let r' := object (setDepthWrite enable r d) in
         blendMode r' = blendMode r
         ∧ depthMode r' = depthMode r
         ∧ currentUBO r' = currentUBO r)
    ∧ (forall buffer,
         let r' := object (attachUBO buffer r d) in
         blendMode r' = blendMode r
         ∧ depthMode r' = depthMode r
         ∧ depthWriteEnabled r' = depthWriteEnabled r).
Proof.
  intros r d. destruct r.
  repeat split; run_setter;
    try match goal with m : BlendMode |- _ => destruct m end;
    try match goal with m : DepthMode |- _ => destruct m end;
    cbn; try reflexivity; try congruence;
    try (match goal with H : ¬ _ ≠ _ |- _ => apply dec_stable in H end;
         congruence).
Qed.

(** C1, as stated, fails: from the default cache (blend mode NONE) the
    single call [setBlend(BLEND_ALPHA)] differs from the cached value once
    and issues two device commands, [glEnable(GL_BLEND)] and
    [glBlendFunc(GL_SRC_ALPHA, GL_ONE_MINUS_SRC_ALPHA)]. *)
Lemma C1_two_commands_for_one_change :
  calls (performAll [CallSetBlend BLEND_ALPHA] OpenGLRenderer_default zero_device)
    = [glEnable GL_BLEND; glBlendFunc GL_SRC_ALPHA GL_ONE_MINUS_SRC_ALPHA]
  ∧ calls_where differs [CallSetBlend BLEND_ALPHA] OpenGLRenderer_default
      zero_device = 1%nat
  ∧ length (calls (performAll [CallSetBlend BLEND_ALPHA] OpenGLRenderer_default
                     zero_device))
      ≠ calls_where differs [CallSetBlend BLEND_ALPHA] OpenGLRenderer_default
          zero_device.
Proof. repeat split. vm_compute. discriminate. Qed.

(** C1, amended.  A call of [setBlend], [setDepthMode], [setDepthWrite] or
    [useTexture] issues no device command exactly when the requested value
    equals the value cached for its slot; a call whose value differs issues
    one command, and one more (the enable toggle) when it switches blending
    or the depth test on.  Hence the number of device commands of a sequence
    is the number of its calls whose requested value differs from the cached
    value at the time of the call, plus the number of its calls that switch
    blending or the depth test on. *)
Theorem C1_device_calls_of_a_sequence :
  (forall (c : StateCall) (r : OpenGLRenderer) (d : Device),
     (calls (perform c r d) = [] <-> differs c r = false)
     ∧ length (calls (perform c r d)) =
         ((if differs c r then 1 else 0)
          + (if switches_on c r then 1 else 0))%nat)
  ∧ (forall (cs : list StateCall) (r : OpenGLRenderer) (d : Device),
       outcome (performAll cs r d) = Returned tt
       ∧ length (calls (performAll cs r d)) =
           (calls_where differs cs r d + calls_where switches_on cs r d)%nat).
Proof.
  split.
  - intros c r d. split; [apply perform_silent_iff | apply perform_calls_length].
  - intros cs r d. split; [|apply performAll_calls_length].
    revert r d. induction cs as [|c cs IH]; intros r d; [reflexivity|].
    cbn [performAll].
    rewrite (bind_returned _ _ _ _ _ (perform_returns c r d)). apply IH.
Qed.



(** ** Streaming buffers *)

Lemma get_set_buffer buffer v r : get_buffer buffer (set_buffer buffer v r) = v.
Proof. destruct buffer, r; reflexivity. Qed.

Lemma uploadUBOEntry_fits buffer data size r d :
  size ≤ entrySize (get_buffer buffer r) ->
  uploadUBOEntry buffer data size r d =
    let b := get_buffer buffer r in
    mkRun (Returned tt)
      (set_buffer buffer
         (set_currentEntry (uint_incr (currentEntry b) mod entryCount b) b) r)
      d [UploadBufferRegion (name b) (currentEntry b) size data].
Proof.
  intros H. cbv [uploadUBOEntry mbind mret GL_bind GL_ret gl_bind gl_ret gets
                 modify gl assert abort outcome object device calls].
  rewrite bool_decide_eq_true_2 by exact H. reflexivity.
Qed.

Lemma uploadUBOEntry_too_large buffer data size r d :
  entrySize (get_buffer buffer r) < size ->
  uploadUBOEntry buffer data size r d = mkRun (Aborted AssertionFailed) r d [].
Proof.
  intros H. cbv [uploadUBOEntry mbind mret GL_bind GL_ret gl_bind gl_ret gets
                 modify gl assert abort outcome object device calls].
  rewrite bool_decide_eq_false_2 by lia. reflexivity.
Qed.

Lemma uint_incr_in_range c n :
  c < n -> n < UINT_MODULUS -> uint_incr c = c + 1.
Proof. intros Hc Hn. unfold uint_incr. apply N.mod_small. lia. Qed.

Lemma uploadAll_cursor buffer us : forall r d,
  let b := get_buffer buffer r in
  buffer_ok b ->
  Forall (fun u => snd u ≤ entrySize b) us ->
  outcome (uploadAll buffer us r d) = Returned tt
  ∧ get_buffer buffer (object (uploadAll buffer us r d)) =
      set_currentEntry
        ((currentEntry b + N.of_nat (length us)) mod entryCount b) b.
Proof.
  induction us as [|[data size] us IH]; intros r d b (Hpos & Hrep & Hcur) Hfit.
  - split; [reflexivity|]. cbn [uploadAll length object mret GL_ret gl_ret].
    rewrite N.add_0_r, N.mod_small by exact Hcur.
    subst b. now destruct (get_buffer buffer r).
  - inversion Hfit as [|u us' Hsize Hrest]; subst. cbn [snd] in Hsize.
    cbn [uploadAll].
    pose proof (uploadUBOEntry_fits buffer data size r d Hsize) as Hrun.
    cbv zeta in Hrun. fold b in Hrun.
    rewrite (bind_returned _ _ _ _ tt) by now rewrite Hrun.
    cbn [outcome object]. rewrite Hrun. cbn [object device].
    set (b' := set_currentEntry (uint_incr (currentEntry b) mod entryCount b) b).
    specialize (IH (set_buffer buffer b' r) d).
    cbv zeta in IH. rewrite get_set_buffer in IH.
    assert (buffer_ok b') as Hok'.
    { subst b'. unfold buffer_ok. cbn. repeat split; try assumption.
      apply N.mod_lt. lia. }
    destruct (IH Hok' Hrest) as [IHo IHc].
    split; [exact IHo|]. rewrite IHc. subst b'. cbn.
    rewrite (uint_incr_in_range _ _ Hcur Hrep).
    rewrite N.Div0.add_mod_idemp_l.
    replace (currentEntry b + 1 + N.of_nat (length us))
      with (currentEntry b + N.of_nat (Datatypes.S (length us))) by lia.
    reflexivity.
Qed.

(** C5.  A successful upload advances the cursor to
    [(currentEntry + 1) mod entryCount] and keeps it below [entryCount];
    after [entryCount] successful uploads the cursor is back at the slot it
    started from, whichever slot that was. *)
Theorem C5_cursor_is_periodic :
  forall (buffer : BufferRef) (r : OpenGLRenderer) (d : Device),
    let b := get_buffer buffer r in
    buffer_ok b ->
    (forall data size,
       size ≤ entrySize b ->
       let run := uploadUBOEntry buffer data size r d in
       outcome run = Returned tt
       ∧ currentEntry (get_buffer buffer (object run))
           = (currentEntry b + 1) mod entryCount b
       ∧ buffer_ok (get_buffer buffer (object run)))
    ∧ (forall us : list (list Byte.byte * N),
         length us = N.to_nat (entryCount b) ->
         Forall (fun u => snd u ≤ entrySize b) us ->
         let run := uploadAll buffer us r d in
         outcome run = Returned tt
         ∧ currentEntry (get_buffer buffer (object run)) = currentEntry b
         ∧ buffer_ok (get_buffer buffer (object run))).
Proof.
  intros buffer r d b Hok. pose proof Hok as (Hpos & Hrep & Hcur). split.
  - intros data size Hsize run. subst run.
    rewrite (uploadUBOEntry_fits buffer data size r d Hsize).
    cbv zeta. fold b. cbn [outcome object]. rewrite get_set_buffer.
    cbn [currentEntry set_currentEntry].
    rewrite (uint_incr_in_range _ _ Hcur Hrep).
    unfold buffer_ok; cbn. repeat split; try assumption.
    apply N.mod_lt. lia.
  - intros us Hlen Hfit run. subst run.
    destruct (uploadAll_cursor buffer us r d Hok Hfit) as [Ho Hc].
    fold b in Hc. split; [exact Ho|]. rewrite Hc, Hlen, N2Nat.id.
    assert ((currentEntry b + entryCount b) mod entryCount b = currentEntry b)
      as Hperiod.
    { rewrite <- N.Div0.add_mod_idemp_r, N.Div0.mod_same, N.add_0_r.
      now apply N.mod_small. }
    rewrite Hperiod. unfold buffer_ok; cbn. repeat split; assumption.
Qed.

(** C5 at the sample renderer: three uploads into a buffer of three slots
    bring the cursor back to slot 1. *)
Lemma C5_cursor_is_periodic_witness :
  outcome (uploadAll RefUBOObject
             [(zeros 4, 4); (zeros 96, 96); ([], 0)] sample_renderer zero_device)
    = Returned tt
  ∧ currentEntry
      (get_buffer RefUBOObject
         (object (uploadAll RefUBOObject
                    [(zeros 4, 4); (zeros 96, 96); ([], 0)]
                    sample_renderer zero_device)))
      = 1
  ∧ buffer_ok
      (get_buffer RefUBOObject
         (object (uploadAll RefUBOObject
                    [(zeros 4, 4); (zeros 96, 96); ([], 0)]
                    sample_renderer zero_device))).
Proof.
  assert (buffer_ok (get_buffer RefUBOObject sample_renderer)) as Hok
    by (vm_compute; repeat split; reflexivity).
  apply (proj2 (C5_cursor_is_periodic RefUBOObject sample_renderer zero_device Hok)).
  - reflexivity.
  - repeat constructor; vm_compute; discriminate.
Defined.

(** C6.  An upload whose size exceeds [entrySize] fails the assertion; the
    failed call issues no device command and leaves the whole renderer, the
    buffer's cursor included, as it was.  The same holds of [uploadUBO] when
    the block is larger than a slot. *)
Theorem C6_oversized_upload_fails :
  forall (buffer : BufferRef) (data : list Byte.byte) (size : N)
         (r : OpenGLRenderer) (d : Device),
    entrySize (get_buffer buffer r) < size ->
    let run := uploadUBOEntry buffer data size r d in
    outcome run = Aborted AssertionFailed
    ∧ calls run = []
    ∧ object run = r
    ∧ currentEntry (get_buffer buffer (object run))
        = currentEntry (get_buffer buffer r).
Proof.
  intros buffer data size r d Hbig run. subst run.
  rewrite (uploadUBOEntry_too_large buffer data size r d Hbig).
  cbn [outcome object calls]. repeat split.
Qed.

(** C6 at the sample renderer: 97 bytes do not fit a slot of 96. *)
Lemma C6_oversized_upload_fails_witness :
  outcome (uploadUBOEntry RefUBOScene (zeros 97) 97 sample_renderer zero_device)
    = Aborted AssertionFailed
  ∧ calls (uploadUBOEntry RefUBOScene (zeros 97) 97 sample_renderer zero_device)
      = []
  ∧ object (uploadUBOEntry RefUBOScene (zeros 97) 97 sample_renderer zero_device)
      = sample_renderer
  ∧ currentEntry
      (get_buffer RefUBOScene
         (object (uploadUBOEntry RefUBOScene (zeros 97) 97 sample_renderer
                    zero_device)))
      = currentEntry (get_buffer RefUBOScene sample_renderer).
Proof.
  apply (C6_oversized_upload_fails RefUBOScene (zeros 97) 97 sample_renderer
           zero_device).
  vm_compute. reflexivity.
Defined.

(** ** Profiling scopes *)

Section Triples.
Context {S : Type}.

Lemma hoare_bind {A B} (P : S -> Prop) (m : GL S A) (Q : A -> S -> Prop)
    (k : A -> GL S B) (R : B -> S -> Prop) :
  hoare P m Q -> (forall a, hoare (Q a) (k a) R) -> hoare P (m ≫= k) R.
Proof.
  intros Hm Hk s d HP.
  destruct (Hm s d HP) as (a & s1 & d1 & cs1 & E1 & HQ).
  destruct (Hk a s1 d1 HQ) as (b & s2 & d2 & cs2 & E2 & HR).
  exists b, s2, d2, (cs1 ++ cs2). split; [|exact HR].
  rewrite (bind_returned _ _ _ _ a) by now rewrite E1.
  rewrite E1. cbn [object device calls]. now rewrite E2.
Qed.

Lemma hoare_weaken {A} (P P' : S -> Prop) (m : GL S A) (Q Q' : A -> S -> Prop) :
  hoare P' m Q' -> (forall s, P s -> P' s) -> (forall a s, Q' a s -> Q a s) ->
  hoare P m Q.
Proof.
  intros Hm HP HQ s d H.
  destruct (Hm s d (HP s H)) as (a & s' & d' & cs & E & HQ').
  exists a, s', d', cs. eauto.
Qed.

Lemma hoare_ret {A} (P : S -> Prop) (a : A) :
  hoare P (mret a) (fun a' s => a' = a ∧ P s).
Proof. intros s d HP. exists a, s, d, []. split; [reflexivity|auto]. Qed.

Lemma hoare_gets {A} (P : S -> Prop) (f : S -> A) :
  hoare P (gets f) (fun a s => a = f s ∧ P s).
Proof. intros s d HP. exists (f s), s, d, []. split; [reflexivity|auto]. Qed.

Lemma hoare_modify (f : S -> S) (Q : unit -> S -> Prop) :
  hoare (fun s => Q tt (f s)) (modify f) Q.
Proof. intros s d HP. exists tt, (f s), d, []. split; [reflexivity|auto]. Qed.

Lemma hoare_gl (P : S -> Prop) (c : GLCall) :
  hoare P (gl c) (fun _ s => P s).
Proof. intros s d HP. exists tt, s, d, [c]. split; [reflexivity|auto]. Qed.

Lemma hoare_query (P : S -> Prop) (c : GLCall) :
  hoare P (gl_query c) (fun _ s => P s).
Proof.
  intros s d HP.
  exists (respond d (served d) c), s,
    {| respond := respond d; served := Datatypes.S (served d) |}, [c].
  split; [reflexivity|auto].
Qed.

(** A computation that always returns and does not touch [f] keeps every
    property of [f]. *)
Lemma hoare_frame {A B} (f : S -> B) (R : B -> Prop) (m : GL S A) :
  total m -> preserves f m -> hoare (fun s => R (f s)) m (fun _ s => R (f s)).
Proof.
  intros Ht Hp s d HR. destruct (Ht s d) as [a Ha].
  exists a, (object (m s d)), (device (m s d)), (calls (m s d)).
  split; [|now rewrite Hp].
  rewrite <- Ha. now destruct (m s d).
Qed.
End Triples.

Lemma viewed_inv infos k sz r :
  viewed infos k sz r ->
  profileInfo r = infos ∧ currentDebugDepth r = Z.of_nat k ∧ slot_sizes r = sz.
Proof. unfold viewed, profile_view. intros H. now inversion H. Qed.

Lemma useDrawBuffer_neutral dbuff :
  total (useDrawBuffer dbuff) ∧ preserves profile_view (useDrawBuffer dbuff).
Proof. setter_neutral. Qed.

Lemma setBlend_neutral mode :
  total (setBlend mode) ∧ preserves profile_view (setBlend mode).
Proof. destruct mode; setter_neutral. Qed.

Lemma setDepthMode_neutral mode :
  total (setDepthMode mode) ∧ preserves profile_view (setDepthMode mode).
Proof. destruct mode; setter_neutral. Qed.

Lemma setDepthWrite_neutral enable :
  total (setDepthWrite enable) ∧ preserves profile_view (setDepthWrite enable).
Proof. setter_neutral. Qed.

Lemma useTexture_neutral tunit tex :
  total (useTexture tunit tex) ∧ preserves profile_view (useTexture tunit tex).
Proof. setter_neutral. Qed.

Lemma neutral_hoare {A} (m : GL OpenGLRenderer A) infos k sz :
  total m ∧ preserves profile_view m ->
  hoare (viewed infos k sz) m (fun _ => viewed infos k sz).
Proof.
  intros [Ht Hp].
  exact (hoare_frame profile_view (fun v => v = (infos, Z.of_nat k, sz)) m Ht Hp).
Qed.

Lemma hoare_seq {A B} (P : OpenGLRenderer -> Prop) (m : GL OpenGLRenderer A)
    (m' : GL OpenGLRenderer B) (Q : B -> OpenGLRenderer -> Prop) :
  hoare P m (fun _ => P) -> hoare P m' Q -> hoare P (m;; m') Q.
Proof. intros Hm Hm'. eapply hoare_bind; [exact Hm|intros ?; exact Hm']. Qed.

Lemma uploadUBOEntry_hoare buffer data size infos k sz :
  size ≤ slot_size sz buffer ->
  hoare (viewed infos k sz) (uploadUBOEntry buffer data size)
        (fun _ => viewed infos k sz).
Proof.
  intros Hfit r d Hv. pose proof (viewed_inv _ _ _ _ Hv) as (_ & _ & Hsz).
  assert (size ≤ entrySize (get_buffer buffer r)) as Hfit'.
  { subst sz. destruct buffer; exact Hfit. }
  rewrite (uploadUBOEntry_fits buffer data size r d Hfit'). cbv zeta.
  eexists tt, _, d, _. split; [reflexivity|].
  unfold viewed in *. rewrite <- Hv. destruct buffer, r; reflexivity.
Qed.

Lemma profile_bump_hoare g infos k sz :
  (k ≤ 5)%nat ->
  hoare (viewed infos k sz) (profile_bump g)
        (fun _ =>
           viewed (match k with
                   | O => infos
                   | Datatypes.S j =>
                       <[j := g (default ProfileInfo_zero (infos !! j))]> infos
                   end) k sz).
Proof.
  intros Hk r d Hv. pose proof (viewed_inv _ _ _ _ Hv) as (Hi & Hd & Hsz).
  cbv [profile_bump mbind mret GL_bind GL_ret gl_bind gl_ret gets
       outcome object device calls].
  rewrite Hd. destruct k as [|j].
  - decide_false. cbn.
    eexists tt, r, d, []. split; [reflexivity|exact Hv].
  - decide_true.
    cbv [when profile_at profile_store mbind mret GL_bind GL_ret gl_bind gl_ret
         gets modify outcome object device calls].
    unfold MAX_DEBUG_DEPTH.
    repeat (decide_true; cbn [outcome object device calls]).
    replace (Z.to_nat (Z.of_nat (Datatypes.S j) - 1)) with j by lia.
    eexists tt, _, d, _. split; [reflexivity|].
    unfold viewed, profile_view in *. inversion Hv; subst.
    destruct r; reflexivity.
Qed.

Lemma bump_uploads_then_draws (infos : list ProfileInfo) j :
  (j < length infos)%nat ->
  let gu := fun p => set_uploads (uint_incr (uploads p)) p in
  let gd := fun p => set_draws (uint_incr (draws p)) p in
  let infos1 := <[j := gu (default ProfileInfo_zero (infos !! j))]> infos in
  <[j := gd (default ProfileInfo_zero (infos1 !! j))]> infos1
  = <[j := bump_counters 1 1 (default ProfileInfo_zero (infos !! j))]> infos.
Proof.
  intros Hj gu gd infos1. subst infos1.
  rewrite list_lookup_insert_eq by exact Hj.
  rewrite list_insert_insert_eq. reflexivity.
Qed.

Lemma uploadUBO_hoare buffer data infos k sz :
  (k ≤ 5)%nat ->
  N.of_nat (length data) ≤ slot_size sz buffer ->
  hoare (viewed infos k sz) (uploadUBO buffer data)
        (fun _ => viewed (bump_slot k 0 1 infos) k sz).
Proof.
  intros Hk Hfit.
  change (uploadUBO buffer data) with
    (uploadUBOEntry buffer data (N.of_nat (length data));;
     profile_bump (fun p => set_uploads (uint_incr (uploads p)) p)).
  apply hoare_seq; [now apply uploadUBOEntry_hoare|].
  eapply hoare_weaken; [apply (profile_bump_hoare _ infos k sz Hk)|auto|].
  intros ? s Hs. destruct k; exact Hs.
Qed.

Lemma set_drawCounter_viewed v infos k sz r :
  viewed infos k sz r -> viewed infos k sz (set_drawCounter v r).
Proof. unfold viewed. intros <-. now destruct r. Qed.

Lemma draw_hoare model dbuff p infos k sz :
  (k ≤ 5)%nat -> (k ≤ length infos)%nat ->
  N.of_nat (length (model ++ material p)) ≤ slot_size sz RefUBOObject ->
  hoare (viewed infos k sz) (draw model dbuff p)
        (fun _ => viewed (bump_slot k 1 1 infos) k sz).
Proof.
  intros Hk Hlen Hfit. unfold draw.
  apply hoare_seq; [apply neutral_hoare, useDrawBuffer_neutral|].
  apply hoare_seq; [apply neutral_hoare, setBlend_neutral|].
  apply hoare_seq; [apply neutral_hoare, setDepthMode_neutral|].
  apply hoare_seq; [apply neutral_hoare, setDepthWrite_neutral|].
  apply hoare_seq; [apply neutral_hoare, useTexture_neutral|].
  apply hoare_seq; [apply neutral_hoare, useTexture_neutral|].
  eapply hoare_bind; [apply (uploadUBO_hoare _ _ infos k sz Hk Hfit)|intros ?].
  apply hoare_seq; [apply hoare_gl|].
  apply hoare_seq.
  { eapply hoare_weaken; [apply hoare_modify| |intros ? s H; exact H].
    intros s Hs. now apply set_drawCounter_viewed. }
  change (hoare (viewed (bump_slot k 0 1 infos) k sz)
            (profile_bump (fun i => set_draws (uint_incr (draws i)) i))
            (fun _ => viewed (bump_slot k 1 1 infos) k sz)).
  eapply hoare_weaken;
    [apply (profile_bump_hoare _ (bump_slot k 0 1 infos) k sz Hk)|auto|].
  intros ? s Hs. destruct k as [|j]; [exact Hs|].
  cbn [bump_slot] in *.
  rewrite <- (bump_uploads_then_draws infos j) by lia. exact Hs.
Qed.

Lemma pushDebugGroup_hoare title infos k sz :
  (k < 5)%nat ->
  hoare (viewed infos k sz) (pushDebugGroup title)
        (fun _ r => ∃ ts,
           viewed (<[k := set_timerStart ts ProfileInfo_zero]> infos)
                  (Datatypes.S k) sz r).
Proof.
  intros Hk r d Hv. pose proof (viewed_inv _ _ _ _ Hv) as (Hi & Hd & Hsz).
  cbv [pushDebugGroup assert profile_store gl_query mbind mret GL_bind GL_ret
       gl_bind gl_ret gets modify outcome object device calls].
  rewrite Hd. unfold MAX_DEBUG_DEPTH.
  repeat (decide_true; cbn [outcome object device calls]).
  rewrite Nat2Z.id.
  eexists tt, _, _, _. split; [reflexivity|].
  exists (to_uint64 (respond d (served d) BeginTimerQuery)).
  unfold viewed, profile_view in *. rewrite <- Hi, <- Hsz.
  destruct r; cbn. repeat f_equal. lia.
Qed.

Lemma popDebugGroup_hoare infos k sz :
  (k < 5)%nat ->
  hoare (viewed infos (Datatypes.S k) sz) popDebugGroup
        (fun p r => ∃ ts,
           p = set_duration ts (default ProfileInfo_zero (infos !! k))
           ∧ viewed (<[k := p]> infos) k sz r).
Proof.
  intros Hk r d Hv. pose proof (viewed_inv _ _ _ _ Hv) as (Hi & Hd & Hsz).
  cbv [popDebugGroup assert profile_at profile_store gl_query mbind mret
       GL_bind GL_ret gl_bind gl_ret gets modify outcome object device calls].
  rewrite Hd. unfold MAX_DEBUG_DEPTH.
  repeat (decide_true; cbn [outcome object device calls]).
  replace (Z.to_nat (Z.of_nat (Datatypes.S k) - 1)) with k by lia.
  eexists _, _, _, _. split; [reflexivity|].
  eexists. split; [rewrite Hi; reflexivity|].
  unfold viewed, profile_view in *. rewrite <- Hi, <- Hsz.
  destruct r; cbn. repeat f_equal. lia.
Qed.

(** *** Bounds of the scope stack *)

Lemma bounded_bind {A B} (m : GL OpenGLRenderer A) (k : A -> GL OpenGLRenderer B) :
  bounded m -> (forall a, bounded (k a)) -> bounded (m ≫= k).
Proof.
  intros Hm Hk r d Hr. destruct (Hm r d Hr) as [Ho Hb].
  rewrite bind_unfold. unfold gl_bind.
  destruct (outcome (m r d)) as [a|f] eqn:E; cbn [outcome object].
  - now apply Hk.
  - split; [|exact Hb]. intros [= ->]. now apply Ho.
Qed.

Lemma bounded_neutral {A} (m : GL OpenGLRenderer A) :
  total m ∧ preserves profile_view m -> bounded m.
Proof.
  intros [Ht Hp] r d Hr. destruct (Ht r d) as [a Ha]. split.
  - rewrite Ha. discriminate.
  - pose proof (Hp r d) as E. unfold profile_view in E.
    injection E as _ Hd _. unfold in_bounds. now rewrite Hd.
Qed.

Lemma bounded_gl c : bounded (gl c).
Proof. intros r d Hr. split; [discriminate|exact Hr]. Qed.

Lemma bounded_uploadUBOEntry buffer data size :
  bounded (uploadUBOEntry buffer data size).
Proof.
  intros r d Hr.
  destruct (N.le_gt_cases size (entrySize (get_buffer buffer r))) as [H|H].
  - rewrite (uploadUBOEntry_fits _ _ _ _ _ H). cbv zeta. cbn [outcome object].
    split; [discriminate|]. unfold in_bounds in *. now destruct buffer, r.
  - rewrite (uploadUBOEntry_too_large _ _ _ _ _ H). cbn [outcome object].
    split; [discriminate|exact Hr].
Qed.

(** A computation that returns within bounds from every state within
    bounds is bounded. *)
Lemma bounded_hoare {A} (m : GL OpenGLRenderer A) :
  (forall infos k sz, (k ≤ 5)%nat ->
     hoare (viewed infos k sz) m
       (fun _ r => ∃ infos' k', (k' ≤ 5)%nat ∧ viewed infos' k' sz r)) ->
  bounded m.
Proof.
  intros H r d [H0 H5]. unfold MAX_DEBUG_DEPTH in *.
  destruct (H (profileInfo r) (Z.to_nat (currentDebugDepth r)) (slot_sizes r)
              ltac:(lia) r d)
    as (a & r' & d' & cs & E & infos' & k' & Hk' & Hv).
  - unfold viewed, profile_view. now rewrite Z2Nat.id by lia.
  - rewrite E. cbn [outcome object]. split; [discriminate|].
    apply viewed_inv in Hv as (_ & Hd & _).
    unfold in_bounds, MAX_DEBUG_DEPTH. lia.
Qed.

Lemma bounded_profile_bump g : bounded (profile_bump g).
Proof.
  apply bounded_hoare. intros infos k sz Hk.
  eapply hoare_weaken; [apply (profile_bump_hoare g infos k sz Hk)|auto|].
  intros ? r Hv. eexists _, k. split; [exact Hk|exact Hv].
Qed.

Lemma bounded_uploadUBO buffer data : bounded (uploadUBO buffer data).
Proof.
  change (uploadUBO buffer data) with
    (uploadUBOEntry buffer data (N.of_nat (length data));;
     profile_bump (fun p => set_uploads (uint_incr (uploads p)) p)).
  apply bounded_bind; [apply bounded_uploadUBOEntry|].
  intros ?. apply bounded_profile_bump.
Qed.

Lemma bounded_draw model dbuff p : bounded (draw model dbuff p).
Proof.
  unfold draw.
  apply bounded_bind; [apply bounded_neutral, useDrawBuffer_neutral|intros ?].
  apply bounded_bind; [apply bounded_neutral, setBlend_neutral|intros ?].
  apply bounded_bind; [apply bounded_neutral, setDepthMode_neutral|intros ?].
  apply bounded_bind; [apply bounded_neutral, setDepthWrite_neutral|intros ?].
  apply bounded_bind; [apply bounded_neutral, useTexture_neutral|intros ?].
  apply bounded_bind; [apply bounded_neutral, useTexture_neutral|intros ?].
  apply bounded_bind; [apply bounded_uploadUBO|intros ?].
  apply bounded_bind; [apply bounded_gl|intros ?].
  apply bounded_bind.
  { intros r d Hr. split; [discriminate|]. unfold in_bounds in *. now destruct r. }
  intros ?.
  exact (bounded_profile_bump (fun i => set_draws (uint_incr (draws i)) i)).
Qed.

Lemma pushDebugGroup_full title r d :
  (MAX_DEBUG_DEPTH ≤ currentDebugDepth r)%Z ->
  pushDebugGroup title r d = mkRun (Aborted AssertionFailed) r d [].
Proof.
  intros H.
  cbv [pushDebugGroup assert abort mbind mret GL_bind GL_ret gl_bind gl_ret
       gets outcome object device calls].
  decide_false. reflexivity.
Qed.

Lemma popDebugGroup_empty r d :
  (currentDebugDepth r ≤ 0)%Z ->
  popDebugGroup r d = mkRun (Aborted AssertionFailed) r d [].
Proof.
  intros H.
  cbv [popDebugGroup assert abort mbind mret GL_bind GL_ret gl_bind gl_ret
       gets outcome object device calls].
  decide_false. reflexivity.
Qed.

Lemma pushDebugGroup_returns title r d :
  (0 ≤ currentDebugDepth r < MAX_DEBUG_DEPTH)%Z ->
  ∃ r' d' cs,
    pushDebugGroup title r d = mkRun (Returned tt) r' d' cs
    ∧ currentDebugDepth r' = (currentDebugDepth r + 1)%Z.
Proof.
  intros H. unfold MAX_DEBUG_DEPTH in H.
  destruct (pushDebugGroup_hoare title (profileInfo r)
              (Z.to_nat (currentDebugDepth r)) (slot_sizes r) ltac:(lia) r d)
    as ([] & r' & d' & cs & E & ts & Hv).
  - unfold viewed, profile_view. now rewrite Z2Nat.id by lia.
  - exists r', d', cs. split; [exact E|].
    apply viewed_inv in Hv as (_ & Hd & _). lia.
Qed.

Lemma popDebugGroup_returns r d :
  (0 < currentDebugDepth r ≤ MAX_DEBUG_DEPTH)%Z ->
  ∃ p r' d' cs,
    popDebugGroup r d = mkRun (Returned p) r' d' cs
    ∧ currentDebugDepth r' = (currentDebugDepth r - 1)%Z.
Proof.
  intros H. unfold MAX_DEBUG_DEPTH in H.
  destruct (popDebugGroup_hoare (profileInfo r)
              (Z.to_nat (currentDebugDepth r - 1)) (slot_sizes r) ltac:(lia) r d)
    as (p & r' & d' & cs & E & ts & _ & Hv).
  - unfold viewed, profile_view. repeat f_equal. lia.
  - exists p, r', d', cs. split; [exact E|].
    apply viewed_inv in Hv as (_ & Hd & _). lia.
Qed.

Lemma bounded_pushDebugGroup title : bounded (pushDebugGroup title).
Proof.
  intros r d Hr. pose proof Hr as [H0 H5].
  destruct (Z.lt_ge_cases (currentDebugDepth r) MAX_DEBUG_DEPTH) as [H|H].
  - destruct (pushDebugGroup_returns title r d ltac:(lia))
      as (r' & d' & cs & E & Hd).
    rewrite E. cbn [outcome object]. split; [discriminate|].
    unfold in_bounds in *. lia.
  - rewrite (pushDebugGroup_full _ _ _ H). cbn [outcome object].
    split; [discriminate|exact Hr].
Qed.

Lemma bounded_popDebugGroup : bounded popDebugGroup.
Proof.
  intros r d Hr. pose proof Hr as [H0 H5].
  destruct (Z.lt_ge_cases 0 (currentDebugDepth r)) as [H|H].
  - destruct (popDebugGroup_returns r d ltac:(lia))
      as (p & r' & d' & cs & E & Hd).
    rewrite E. cbn [outcome object]. split; [discriminate|].
    unfold in_bounds in *. lia.
  - rewrite (popDebugGroup_empty _ _ H). cbn [outcome object].
    split; [discriminate|exact Hr].
Qed.

Lemma bounded_replay es : bounded (replay es).
Proof.
  induction es as [|[title| |o] es IH]; cbn [replay].
  - intros r d Hr. split; [discriminate|exact Hr].
  - apply bounded_bind; [apply bounded_pushDebugGroup|intros ?; exact IH].
  - apply bounded_bind; [apply bounded_popDebugGroup|intros p].
    apply bounded_bind; [exact IH|intros ps].
    intros r d Hr. split; [discriminate|exact Hr].
  - apply bounded_bind; [|intros ?; exact IH].
    destruct o; [apply bounded_draw|apply bounded_uploadUBO].
Qed.

Lemma replay_pushes titles : forall r d,
  in_bounds r ->
  let run := replay (map EvPush titles) r d in
  ((currentDebugDepth r + Z.of_nat (length titles) ≤ MAX_DEBUG_DEPTH)%Z ->
   outcome run = Returned []
   ∧ currentDebugDepth (object run)
       = (currentDebugDepth r + Z.of_nat (length titles))%Z)
  ∧ ((MAX_DEBUG_DEPTH < currentDebugDepth r + Z.of_nat (length titles))%Z ->
     outcome run = Aborted AssertionFailed
     ∧ currentDebugDepth (object run) = MAX_DEBUG_DEPTH).
Proof.
  induction titles as [|t ts IH]; intros r d Hr run; subst run.
  - cbn. unfold in_bounds in Hr. split; [intros _; split; [reflexivity|lia]|lia].
  - cbn [map replay length].
    destruct (Z.lt_ge_cases (currentDebugDepth r) MAX_DEBUG_DEPTH) as [H|H].
    + destruct (pushDebugGroup_returns t r d) as (r' & d' & cs & E & Hd);
        [unfold in_bounds in Hr; lia|].
      rewrite (bind_returned _ _ _ _ tt) by now rewrite E.
      rewrite E. cbn [outcome object device].
      assert (in_bounds r') as Hr' by (unfold in_bounds in *; lia).
      destruct (IH r' d' Hr') as [IH1 IH2]. rewrite Hd in IH1, IH2.
      split; intros Hn; [destruct IH1 as [-> ->]|destruct IH2 as [-> ->]];
        try lia; split; try reflexivity; lia.
    + rewrite (bind_aborted _ _ _ _ AssertionFailed)
        by now rewrite pushDebugGroup_full.
      rewrite pushDebugGroup_full by exact H. cbn [outcome object].
      unfold in_bounds in Hr. split; [lia|]. intros _. split; [reflexivity|lia].
Qed.

(** C7.  With the depth in [0, 5]: [pushDebugGroup] returns and raises the
    depth by one when the depth is below 5, and fails its assertion, leaving
    the renderer as it was, when the depth is 5; so a run of pushes returns
    as long as it stays within depth 5 and the push that would exceed it
    (the sixth from depth 0) is rejected.  [popDebugGroup] returns and
    lowers the depth by one when the depth is above 0, and fails its
    assertion at depth 0.  Whatever sequence of pushes, pops, draws and
    uploads is replayed, the depth stays in [0, 5] and [profileInfo] is
    never indexed outside its extent. *)
Theorem C7_scope_depth_bounded :
  forall (r : OpenGLRenderer) (d : Device),
    in_bounds r ->
    (forall title,
       ((currentDebugDepth r < MAX_DEBUG_DEPTH)%Z ->
        ∃ r' d' cs,
          pushDebugGroup title r d = mkRun (Returned tt) r' d' cs
          ∧ currentDebugDepth r' = (currentDebugDepth r + 1)%Z)
       ∧ (currentDebugDepth r = MAX_DEBUG_DEPTH ->
          pushDebugGroup title r d = mkRun (Aborted AssertionFailed) r d []))
    ∧ ((0 < currentDebugDepth r)%Z ->
       ∃ p r' d' cs,
         popDebugGroup r d = mkRun (Returned p) r' d' cs
         ∧ currentDebugDepth r' = (currentDebugDepth r - 1)%Z)
    ∧ (currentDebugDepth r = 0%Z ->
       popDebugGroup r d = mkRun (Aborted AssertionFailed) r d [])
    ∧ (forall titles,
         let run := replay (map EvPush titles) r d in
         ((currentDebugDepth r + Z.of_nat (length titles) ≤ MAX_DEBUG_DEPTH)%Z ->
          outcome run = Returned []
          ∧ currentDebugDepth (object run)
              = (currentDebugDepth r + Z.of_nat (length titles))%Z)
         ∧ ((MAX_DEBUG_DEPTH < currentDebugDepth r + Z.of_nat (length titles))%Z ->
            outcome run = Aborted AssertionFailed
            ∧ currentDebugDepth (object run) = MAX_DEBUG_DEPTH))
    ∧ (forall es,
         outcome (replay es r d) ≠ Aborted OutOfBounds
         ∧ in_bounds (object (replay es r d))).
Proof.
  intros r d Hr. pose proof Hr as [H0 H5].
  split; [|split; [|split; [|split]]].
  - intros title. split.
    + intros H. apply pushDebugGroup_returns. lia.
    + intros H. apply pushDebugGroup_full. lia.
  - intros H. apply popDebugGroup_returns. lia.
  - intros H. apply popDebugGroup_empty. lia.
  - intros titles. now apply replay_pushes.
  - intros es. now apply bounded_replay.
Qed.

(** C7 at the default renderer: five pushes return, the sixth is rejected,
    a pop at depth 0 is rejected, and an unbalanced sequence stays within
    the array. *)
Lemma C7_scope_depth_bounded_witness :
  outcome (replay (map EvPush ["a"; "b"; "c"; "d"; "e"]%string)
             OpenGLRenderer_default zero_device) = Returned []
  ∧ outcome (replay (map EvPush ["a"; "b"; "c"; "d"; "e"; "f"]%string)
               OpenGLRenderer_default zero_device) = Aborted AssertionFailed
  ∧ popDebugGroup OpenGLRenderer_default zero_device
      = mkRun (Aborted AssertionFailed) OpenGLRenderer_default zero_device []
  ∧ outcome (replay [EvPush "a"; EvPop; EvPop; EvPush "b"]%string
               OpenGLRenderer_default zero_device) ≠ Aborted OutOfBounds.
Proof.
  assert (in_bounds OpenGLRenderer_default) as Hr by (vm_compute; split; discriminate).
  pose proof (C7_scope_depth_bounded OpenGLRenderer_default zero_device Hr)
    as (_ & _ & Hpop & Hpushes & Hall).
  split; [|split; [|split]].
  - apply (Hpushes ["a"; "b"; "c"; "d"; "e"]%string). vm_compute. discriminate.
  - apply (Hpushes ["a"; "b"; "c"; "d"; "e"; "f"]%string). vm_compute. reflexivity.
  - apply Hpop. reflexivity.
  - apply (Hall [EvPush "a"; EvPop; EvPop; EvPush "b"]%string).
Defined.

(** ** Draw submission *)

Lemma tally_le (p q : GLCall -> bool) t :
  (forall c, p c = true -> q c = true) -> (tally p t ≤ tally q t)%nat.
Proof.
  intros H. unfold tally. induction t as [|c t IH]; [reflexivity|]. cbn.
  destruct (p c) eqn:E.
  - rewrite (H c E). cbn. lia.
  - destruct (q c); cbn; lia.
Qed.

Lemma tally_watched_zero t :
  tally watched t = 0%nat ->
  tally is_buffer_bind t = 0%nat
  ∧ tally is_blend_enable t = 0%nat
  ∧ tally is_blend_func t = 0%nat.
Proof.
  intros H.
  assert (forall p, (forall c, p c = true -> watched c = true) -> tally p t = 0%nat)
    as Hp by (intros p Hc; pose proof (tally_le p watched t Hc); lia).
  repeat split; apply Hp; intros c Hc; unfold watched; rewrite Hc;
    cbn; rewrite ?orb_true_r; reflexivity.
Qed.

Lemma setDepthMode_tail mode :
  quiet watched (setDepthMode mode) ∧ preserves cache_key (setDepthMode mode).
Proof.
  split; [intros r d; rewrite setDepthMode_calls;
          destruct mode, (depthMode r); reflexivity|].
  destruct mode; intros [] d; run_setter; reflexivity.
Qed.

Lemma setDepthWrite_tail enable :
  quiet watched (setDepthWrite enable) ∧ preserves cache_key (setDepthWrite enable).
Proof.
  split; [intros r d; rewrite setDepthWrite_calls; case_bool_decide; reflexivity|].
  intros [] d; run_setter; reflexivity.
Qed.

Lemma useTexture_tail tunit tex :
  quiet watched (useTexture tunit tex) ∧ preserves cache_key (useTexture tunit tex).
Proof.
  split; [intros r d; rewrite useTexture_calls; case_bool_decide; reflexivity|].
  intros [] d; run_setter; reflexivity.
Qed.

Lemma profile_bump_tail g :
  quiet watched (profile_bump g) ∧ preserves cache_key (profile_bump g).
Proof. split; intros [] d; run_cases; reflexivity. Qed.

Lemma uploadUBO_tail buffer data :
  quiet watched (uploadUBO buffer data) ∧ preserves cache_key (uploadUBO buffer data).
Proof.
  change (uploadUBO buffer data) with
    (uploadUBOEntry buffer data (N.of_nat (length data));;
     profile_bump (fun p => set_uploads (uint_incr (uploads p)) p)).
  split.
  - apply quiet_bind; [|intros ?; apply profile_bump_tail].
    intros [] d; destruct buffer; run_cases; reflexivity.
  - apply preserves_bind; [|intros ?; apply profile_bump_tail].
    intros [] d; destruct buffer; run_cases; reflexivity.
Qed.

Lemma useDrawBuffer_cache dbuff r d :
  cache_key (object (useDrawBuffer dbuff r d)) = (Some dbuff, blendMode r).
Proof.
  destruct r; run_setter; try reflexivity.
  unfold cache_key; cbn. congruence.
Qed.

Lemma setBlend_cache mode r d :
  cache_key (object (setBlend mode r d)) = (currentDbuff r, mode).
Proof. destruct r, mode; run_setter; reflexivity. Qed.

Lemma useDrawBuffer_calls dbuff r d :
  calls (useDrawBuffer dbuff r d) =
    if bool_decide (currentDbuff r ≠ Some dbuff)
    then [BindGeometryBuffer dbuff] else [].
Proof. destruct r; run_setter; reflexivity. Qed.

(** The device commands of a draw: those of binding the buffer, those of
    setting the blend mode, and a rest without buffer binds, blend toggles
    and blend functions.  The draw leaves its buffer and its blend mode in
    the cache. *)
Lemma draw_split model dbuff p r d :
  let r1 := object (useDrawBuffer dbuff r d) in
  let d1 := device (useDrawBuffer dbuff r d) in
  ∃ rest,
    calls (draw model dbuff p r d) =
      calls (useDrawBuffer dbuff r d)
      ++ calls (setBlend (dp_blendMode p) r1 d1) ++ rest
    ∧ tally watched rest = 0%nat
    ∧ cache_key (object (draw model dbuff p r d)) = (Some dbuff, dp_blendMode p).
Proof.
  intros r1 d1. unfold draw.
  destruct (proj1 (useDrawBuffer_neutral dbuff) r d) as [[] E1].
  rewrite (bind_returned _ _ _ _ tt E1). cbv zeta. fold r1 d1.
  destruct (proj1 (setBlend_neutral (dp_blendMode p)) r1 d1) as [[] E2].
  rewrite (bind_returned _ _ _ _ tt E2). cbv zeta.
  cbn [calls object].
  match goal with
  | |- context [calls (?tail (object (setBlend _ r1 d1)) ?d2)] =>
      exists (calls (tail (object (setBlend (dp_blendMode p) r1 d1)) d2));
      assert (quiet watched tail ∧ preserves cache_key tail) as [Hq Hp]
  end.
  { split.
    - apply quiet_bind; [apply setDepthMode_tail|intros ?].
      apply quiet_bind; [apply setDepthWrite_tail|intros ?].
      apply quiet_bind; [apply useTexture_tail|intros ?].
      apply quiet_bind; [apply useTexture_tail|intros ?].
      apply quiet_bind; [apply uploadUBO_tail|intros ?].
      apply quiet_bind; [intros ? ?; reflexivity|intros ?].
      apply quiet_bind; [intros ? ?; reflexivity|intros ?].
      exact (proj1 (profile_bump_tail _)).
    - apply preserves_bind; [apply setDepthMode_tail|intros ?].
      apply preserves_bind; [apply setDepthWrite_tail|intros ?].
      apply preserves_bind; [apply useTexture_tail|intros ?].
      apply preserves_bind; [apply useTexture_tail|intros ?].
      apply preserves_bind; [apply uploadUBO_tail|intros ?].
      apply preserves_bind; [intros ? ?; reflexivity|intros ?].
      apply preserves_bind; [intros [] ?; reflexivity|intros ?].
      exact (proj2 (profile_bump_tail _)). }
  split; [reflexivity|]. split; [apply Hq|]. rewrite Hp.
  rewrite setBlend_cache. subst r1.
  change (currentDbuff (object (useDrawBuffer dbuff r d)))
    with (fst (cache_key (object (useDrawBuffer dbuff r d)))).
  now rewrite useDrawBuffer_cache.
Qed.

Lemma draw_tally (p : GLCall -> bool) model dbuff pr r d :
  (forall c, p c = true -> watched c = true) ->
  tally p (calls (draw model dbuff pr r d)) =
    tally p (draw_head_calls (cache_key r) dbuff (dp_blendMode pr)).
Proof.
  intros Hp. destruct (draw_split model dbuff pr r d) as (rest & E & Hq & _).
  rewrite E, !tally_app.
  assert (tally p rest = 0%nat) as ->
    by (pose proof (tally_le p watched rest Hp); lia).
  rewrite useDrawBuffer_calls, setBlend_calls.
  change (blendMode (object (useDrawBuffer dbuff r d)))
    with (snd (cache_key (object (useDrawBuffer dbuff r d)))).
  rewrite useDrawBuffer_cache. unfold draw_head_calls.
  rewrite !tally_app. cbn [fst snd cache_key]. lia.
Qed.

Lemma draw_returns i r d :
  profiling_ok r -> op_fits (slot_sizes r) (OpDraw i) ->
  ∃ r' d' cs,
    draw (model i) (dbuff i) (drawInfo i) r d = mkRun (Returned tt) r' d' cs
    ∧ profiling_ok r' ∧ slot_sizes r' = slot_sizes r.
Proof.
  intros [Hlen [H0 H5]] Hfit. unfold MAX_DEBUG_DEPTH in *.
  destruct (draw_hoare (model i) (dbuff i) (drawInfo i) (profileInfo r)
              (Z.to_nat (currentDebugDepth r)) (slot_sizes r)
              ltac:(lia) ltac:(lia) Hfit r d)
    as ([] & r' & d' & cs & E & Hv).
  - unfold viewed, profile_view. now rewrite Z2Nat.id by lia.
  - exists r', d', cs. split; [exact E|].
    apply viewed_inv in Hv as (Hi & Hd & Hsz). split; [|exact Hsz].
    split; [|unfold MAX_DEBUG_DEPTH; lia]. rewrite Hi.
    destruct (Z.to_nat (currentDebugDepth r)); cbn [bump_slot];
      [exact Hlen|now rewrite length_insert].
Qed.

(** The device commands two consecutive draws issue for their buffers and
    blend modes. *)
Lemma draw_pair_tally (p : GLCall -> bool) a b r d :
  (forall c, p c = true -> watched c = true) ->
  profiling_ok r ->
  op_fits (slot_sizes r) (OpDraw a) -> op_fits (slot_sizes r) (OpDraw b) ->
  outcome (drawBatched [a; b] r d) = Returned tt
  ∧ tally p (calls (drawBatched [a; b] r d)) =
      (tally p (draw_head_calls (cache_key r) (dbuff a)
                  (dp_blendMode (drawInfo a)))
       + tally p (draw_head_calls (Some (dbuff a), dp_blendMode (drawInfo a))
                    (dbuff b) (dp_blendMode (drawInfo b))))%nat.
Proof.
  intros Hp Hok Hfa Hfb. cbn [drawBatched].
  destruct (draw_returns a r d Hok Hfa) as (ra & da & ca & Ea & Hoka & Hsza).
  destruct (draw_split (model a) (dbuff a) (drawInfo a) r d) as (_ & _ & _ & Hkey).
  pose proof (draw_tally p (model a) (dbuff a) (drawInfo a) r d Hp) as Ta.
  rewrite Ea in Hkey, Ta. cbn [object calls] in Hkey, Ta.
  rewrite (bind_returned _ _ _ _ tt) by now rewrite Ea.
  rewrite Ea. cbn [object device calls outcome].
  rewrite <- Hsza in Hfb.
  destruct (draw_returns b ra da Hoka Hfb) as (rb & db & cb & Eb & _ & _).
  pose proof (draw_tally p (model b) (dbuff b) (drawInfo b) ra da Hp) as Tb.
  rewrite Eb, Hkey in Tb. cbn [calls] in Tb.
  rewrite (bind_returned _ _ _ _ tt) by now rewrite Eb.
  rewrite Eb. cbn [object device calls outcome].
  split; [reflexivity|]. rewrite !tally_app, Ta, Tb. cbn. lia.
Qed.

(** C8, as stated, fails in its second half: with A = (buffer 7, ALPHA) and
    B = (buffer 7, ADDITIVE) drawn from the default cache, the pair issues
    one buffer bind and one [glEnable(GL_BLEND)], not two of each; it is the
    blend function that is set twice. *)
Lemma C8_one_bind_one_enable_for_additive :
  let run := drawBatched [sample_draw BLEND_ALPHA; sample_draw BLEND_ADDITIVE]
               sample_renderer zero_device in
  outcome run = Returned tt
  ∧ tally is_buffer_bind (calls run) = 1%nat
  ∧ tally is_blend_enable (calls run) = 1%nat
  ∧ tally is_blend_func (calls run) = 2%nat.
Proof. vm_compute. repeat split. Qed.

(** C8, amended.  Two consecutive draws A and B of the same buffer, A with
    blend mode ALPHA, submitted to a cache that holds neither that buffer nor
    a blend mode other than NONE, both return.  The pair issues one buffer
    bind and one [glEnable(GL_BLEND)] whatever the blend mode of B is; it
    issues one [glBlendFunc] if B uses ALPHA and two if B uses ADDITIVE. *)
Theorem C8_pair_of_draws :
  forall (a b : RenderInstruction) (r : OpenGLRenderer) (d : Device),
    profiling_ok r ->
    op_fits (slot_sizes r) (OpDraw a) -> op_fits (slot_sizes r) (OpDraw b) ->
    currentDbuff r ≠ Some (dbuff a) ->
    blendMode r = BLEND_NONE ->
    dbuff b = dbuff a ->
    dp_blendMode (drawInfo a) = BLEND_ALPHA ->
    let run := drawBatched [a; b] r d in
    outcome run = Returned tt
    ∧ tally is_buffer_bind (calls run) = 1%nat
    ∧ tally is_blend_enable (calls run) = 1%nat
    ∧ tally is_blend_func (calls run) =
        if bool_decide (dp_blendMode (drawInfo b) = BLEND_ADDITIVE)
        then 2%nat else 1%nat.
Proof.
  intros a b r d Hok Hfa Hfb Hbuf Hblend Hsame Halpha run. subst run.
  assert (forall p, (forall c, p c = true -> watched c = true) ->
            tally p (calls (drawBatched [a; b] r d)) =
              (tally p [BindGeometryBuffer (dbuff a); glEnable GL_BLEND;
                        blend_mode_call BLEND_ALPHA]
               + tally p (if bool_decide (dp_blendMode (drawInfo b) ≠ BLEND_ALPHA)
                          then [blend_mode_call (dp_blendMode (drawInfo b))]
                          else []))%nat) as T.
  { intros p Hp.
    rewrite (proj2 (draw_pair_tally p a b r d Hp Hok Hfa Hfb)).
    unfold draw_head_calls, cache_key. cbn [fst snd].
    rewrite Halpha, Hblend, Hsame.
    rewrite (bool_decide_eq_true_2 (currentDbuff r ≠ Some (dbuff a))) by exact Hbuf.
    rewrite (bool_decide_eq_false_2 (Some (dbuff a) ≠ Some (dbuff a)))
      by (intros E; now apply E).
    destruct (dp_blendMode (drawInfo b)); reflexivity. }
  assert (forall c, is_buffer_bind c = true -> watched c = true) as W1
    by (intros c Hc; unfold watched; now rewrite Hc).
  assert (forall c, is_blend_enable c = true -> watched c = true) as W2
    by (intros c Hc; unfold watched; rewrite Hc; now rewrite orb_true_r).
  assert (forall c, is_blend_func c = true -> watched c = true) as W3
    by (intros c Hc; unfold watched; rewrite Hc; now rewrite orb_true_r).
  split; [apply (draw_pair_tally is_buffer_bind a b r d W1 Hok Hfa Hfb)|].
  rewrite (T _ W1), (T _ W2), (T _ W3).
  destruct (dp_blendMode (drawInfo b)); repeat split.
Qed.

(** C8, amended, at the sample renderer, for B with ALPHA and for B with
    ADDITIVE. *)
Lemma C8_pair_of_draws_witness :
  (outcome (drawBatched [sample_draw BLEND_ALPHA; sample_draw BLEND_ALPHA]
              sample_renderer zero_device) = Returned tt
   ∧ tally is_buffer_bind
       (calls (drawBatched [sample_draw BLEND_ALPHA; sample_draw BLEND_ALPHA]
                 sample_renderer zero_device)) = 1%nat
   ∧ tally is_blend_enable
       (calls (drawBatched [sample_draw BLEND_ALPHA; sample_draw BLEND_ALPHA]
                 sample_renderer zero_device)) = 1%nat
   ∧ tally is_blend_func
       (calls (drawBatched [sample_draw BLEND_ALPHA; sample_draw BLEND_ALPHA]
                 sample_renderer zero_device)) = 1%nat)
  ∧ (outcome (drawBatched [sample_draw BLEND_ALPHA; sample_draw BLEND_ADDITIVE]
                sample_renderer zero_device) = Returned tt
     ∧ tally is_buffer_bind
         (calls (drawBatched [sample_draw BLEND_ALPHA; sample_draw BLEND_ADDITIVE]
                   sample_renderer zero_device)) = 1%nat
     ∧ tally is_blend_enable
         (calls (drawBatched [sample_draw BLEND_ALPHA; sample_draw BLEND_ADDITIVE]
                   sample_renderer zero_device)) = 1%nat
     ∧ tally is_blend_func
         (calls (drawBatched [sample_draw BLEND_ALPHA; sample_draw BLEND_ADDITIVE]
                   sample_renderer zero_device)) = 2%nat).
Proof.
  assert (profiling_ok sample_renderer) as Hok
    by (split; [reflexivity|vm_compute; split; discriminate]).
  assert (forall mode, op_fits (slot_sizes sample_renderer) (OpDraw (sample_draw mode)))
    as Hfit by (intros mode; vm_compute; discriminate).
  split.
  - apply (C8_pair_of_draws (sample_draw BLEND_ALPHA) (sample_draw BLEND_ALPHA)
             sample_renderer zero_device Hok (Hfit _) (Hfit _));
      [discriminate|reflexivity..].
  - apply (C8_pair_of_draws (sample_draw BLEND_ALPHA) (sample_draw BLEND_ADDITIVE)
             sample_renderer zero_device Hok (Hfit _) (Hfit _));
      [discriminate|reflexivity..].
Defined.

(** ** Uniform locations *)

Lemma getUniformLocation_miss name p d :
  uniforms p !! c_str name = None ->
  getUniformLocation name p d =
    let q := glGetUniformLocation (program p) (c_str name) in
    mkRun (Returned (respond d (served d) q))
      (mkOpenGLShaderProgram (program p)
         (<[name := respond d (served d) q]> (uniforms p)))
      {| respond := respond d; served := Datatypes.S (served d) |} [q].
Proof.
  intros H. cbv [getUniformLocation mbind mret GL_bind GL_ret gl_bind gl_ret
                 gets gl_query modify outcome object device calls].
  rewrite H. reflexivity.
Qed.

Lemma getUniformLocation_hit name p d stored :
  uniforms p !! c_str name = Some stored ->
  getUniformLocation name p d = mkRun (Returned stored) p d [].
Proof.
  intros H. cbv [getUniformLocation mbind mret GL_bind GL_ret gl_bind gl_ret
                 gets gl_query modify outcome object device calls].
  rewrite H. reflexivity.
Qed.

Lemma getUniformLocation_total name : total (getUniformLocation name).
Proof.
  intros p d. destruct (uniforms p !! c_str name) as [v|] eqn:E.
  - rewrite (getUniformLocation_hit _ _ _ _ E). eauto.
  - rewrite (getUniformLocation_miss _ _ _ E). cbv zeta. eauto.
Qed.

(** An entry stored under a C string is never replaced. *)
Lemma getUniformLocation_keeps name stored other p d :
  is_c_string name ->
  uniforms p !! name = Some stored ->
  uniforms (object (getUniformLocation other p d)) !! name = Some stored.
Proof.
  intros Hc Hs. destruct (uniforms p !! c_str other) as [v|] eqn:E.
  - now rewrite (getUniformLocation_hit _ _ _ _ E).
  - rewrite (getUniformLocation_miss _ _ _ E). cbv zeta. cbn [object uniforms].
    rewrite lookup_insert_ne; [exact Hs|].
    intros ->. unfold is_c_string in Hc. congruence.
Qed.

Lemma lookupAll_keeps name stored others : forall p d,
  is_c_string name ->
  uniforms p !! name = Some stored ->
  outcome (lookupAll others p d) = Returned tt
  ∧ uniforms (object (lookupAll others p d)) !! name = Some stored.
Proof.
  induction others as [|other others IH]; intros p d Hc Hs.
  - split; [reflexivity|exact Hs].
  - cbn [lookupAll].
    destruct (getUniformLocation_total other p d) as [loc E].
    rewrite (bind_returned _ _ _ _ _ E). cbv zeta. cbn [outcome object].
    apply IH; [exact Hc|]. now apply getUniformLocation_keeps.
Qed.

(** C10, as stated, fails for a name with an embedded NUL character.
    [find] looks up [name.c_str()], the text before the NUL, while the
    result is stored under [name], so the stored value is never found: the
    second call with the same name queries the device again, and returns
    what the device answers then. *)
Lemma C10_embedded_nul_is_never_found :
  let run1 := getUniformLocation name_with_nul fresh_program counting_device in
  let run2 := getUniformLocation name_with_nul (object run1) (device run1) in
  outcome run1 = Returned 0%Z
  ∧ calls run1 = [glGetUniformLocation 1 "a"]
  ∧ uniforms (object run1) !! name_with_nul = Some 0%Z
  ∧ outcome run2 = Returned 1%Z
  ∧ calls run2 = [glGetUniformLocation 1 "a"].
Proof.
  cbv zeta.
  rewrite (getUniformLocation_miss name_with_nul fresh_program counting_device)
    by reflexivity.
  cbv zeta. cbn [outcome object device calls].
  rewrite getUniformLocation_miss by (cbn; now rewrite lookup_insert_ne).
  cbv zeta. cbn [outcome object device calls uniforms].
  rewrite lookup_insert_eq. repeat split.
Qed.

(** C10, amended.  For every uniform name that is a C string (no embedded
    NUL character): a call returns; if nothing is stored for the name the
    call issues one device query and returns the device's answer, whatever
    it is (-1 included); after the call the answer is stored under the
    name; and every later call with that name, whatever other names are
    looked up in between and whatever the device would answer by then,
    returns the stored value, issues no device query and leaves the map as
    it is. *)
Theorem C10_location_is_cached :
  forall (name : string) (p : OpenGLShaderProgram) (d : Device),
    is_c_string name ->
    let first := getUniformLocation name p d in
    ∃ loc,
      outcome first = Returned loc
      ∧ (uniforms p !! name = None ->
         calls first = [glGetUniformLocation (program p) name]
         ∧ loc = respond d (served d) (glGetUniformLocation (program p) name))
      ∧ uniforms (object first) !! name = Some loc
      ∧ forall (others : list string) (d1 d2 : Device),
          let p' := object (lookupAll others (object first) d1) in
          getUniformLocation name p' d2 = mkRun (Returned loc) p' d2 [].
Proof.
  intros name p d Hc first. subst first.
  assert (∃ loc, outcome (getUniformLocation name p d) = Returned loc
                 ∧ (uniforms p !! name = None ->
                    calls (getUniformLocation name p d)
                      = [glGetUniformLocation (program p) name]
                    ∧ loc = respond d (served d)
                              (glGetUniformLocation (program p) name))
                 ∧ uniforms (object (getUniformLocation name p d)) !! name
                     = Some loc) as (loc & Ho & Hq & Hs).
  { destruct (uniforms p !! name) as [v|] eqn:E.
    - exists v. rewrite (getUniformLocation_hit name p d v) by now rewrite Hc.
      cbn [outcome object].
      split; [reflexivity|]. split; [discriminate|exact E].
    - eexists. rewrite getUniformLocation_miss by now rewrite Hc.
      cbv zeta. cbn [outcome object calls uniforms]. rewrite Hc.
      split; [reflexivity|]. split; [intros _; split; reflexivity|].
      apply lookup_insert_eq. }
  exists loc. repeat split; try assumption; try (now apply Hq).
  intros others d1 d2 p'. subst p'.
  apply getUniformLocation_hit. rewrite Hc.
  now apply lookupAll_keeps.
Qed.

(** C10, amended, at the name [tex] on a fresh program. *)
Lemma C10_location_is_cached_witness :
  ∃ loc,
    outcome (getUniformLocation "tex" fresh_program counting_device)
      = Returned loc
    ∧ (uniforms fresh_program !! "tex"%string = None ->
       calls (getUniformLocation "tex" fresh_program counting_device)
         = [glGetUniformLocation (program fresh_program) "tex"]
       ∧ loc = respond counting_device (served counting_device)
                 (glGetUniformLocation (program fresh_program) "tex"))
    ∧ uniforms (object (getUniformLocation "tex" fresh_program counting_device))
        !! "tex"%string = Some loc
    ∧ forall (others : list string) (d1 d2 : Device),
        getUniformLocation "tex"
          (object (lookupAll others
                     (object (getUniformLocation "tex" fresh_program
                                counting_device)) d1)) d2
        = mkRun (Returned loc)
            (object (lookupAll others
                       (object (getUniformLocation "tex" fresh_program
                                  counting_device)) d1)) d2 [].
Proof.
  apply (C10_location_is_cached "tex" fresh_program counting_device).
  reflexivity.
Defined.

(** ** The cached setters and the device *)

(** What a call of a cached setter does, in one equation. *)
Lemma cache_call_run c r d :
  cache_call c r d = mkRun (Returned tt) (cache_store c r) d (cache_emits c r).
Proof.
  destruct c as [mode|mode|enable|buffer]; cbn [cache_store cache_emits].
  - destruct r as [? ? ? ? ? ? ? cached ? ? ? ? ? ? ?].
    destruct mode, cached; reflexivity.
  - destruct r as [? ? ? ? ? ? ? ? cached ? ? ? ? ? ?].
    destruct mode, cached; reflexivity.
  - destruct r as [? ? ? ? ? ? ? ? ? cached ? ? ? ? ?].
    destruct enable, cached; reflexivity.
  - destruct r as [? ? ? ? ? ? ? ? ? ? cached ? ? ? ?].
    cbv [cache_call attachUBO mbind GL_bind gl_bind gets when currentUBO
         set_currentUBO outcome object device calls].
    cbn [currentUBO]. case_bool_decide as E; [reflexivity|]. now subst.
Qed.

Lemma gl_run_app t1 t2 s : gl_run (t1 ++ t2) s = gl_run t2 (gl_run t1 s).
Proof. apply fold_left_app. Qed.

(** One call keeps the cache and the device in agreement. *)
Lemma cache_call_coherent c r s :
  coherent r s -> coherent (cache_store c r) (gl_run (cache_emits c r) s).
Proof.
  unfold coherent. intros (Hb & Hf & Ht & Hm & Hu).
  destruct r as [? ? ? ? ? ? ? bm dm dw ubo ? ? ? ?], s as [sb sf st sm su].
  cbn in Hb, Hf, Ht, Hm, Hu. subst sb st sm su.
  destruct c as [mode|mode|enable|buffer]; cbn [cache_store cache_emits].
  - destruct mode, bm; cbn; repeat split; try reflexivity; try congruence;
      intros _; apply Hf; discriminate.
  - destruct mode, dm; cbn; repeat split; try reflexivity; exact Hf.
  - cbn [depthWriteEnabled]. case_bool_decide; cbn; repeat split;
      try reflexivity; try exact Hf; congruence.
  - cbn [currentUBO]. case_bool_decide; cbn; repeat split;
      try reflexivity; try exact Hf; congruence.
Qed.

Lemma cache_store_stores c r s :
  coherent (cache_store c r) s -> in_effect c s.
Proof.
  unfold coherent. intros (Hb & Hf & Ht & Hm & Hu).
  destruct c as [mode|mode|enable|buffer], r; cbn in *; auto.
Qed.

Lemma cache_calls_coherent cs : forall r d s,
  coherent r s ->
  outcome (cache_calls cs r d) = Returned tt
  ∧ coherent (object (cache_calls cs r d)) (gl_run (calls (cache_calls cs r d)) s).
Proof.
  induction cs as [|c cs IH]; intros r d s H; [split; [reflexivity|exact H]|].
  cbn [cache_calls].
  rewrite (bind_returned _ _ _ _ tt) by now rewrite cache_call_run.
  rewrite cache_call_run. cbn [outcome object device calls]. rewrite gl_run_app.
  apply IH. now apply cache_call_coherent.
Qed.

Lemma cache_calls_last_in_effect cs c : forall r d s,
  coherent r s ->
  in_effect c (gl_run (calls (cache_calls (cs ++ [c]) r d)) s).
Proof.
  induction cs as [|c0 cs IH]; intros r d s H; cbn [app cache_calls];
    (rewrite (bind_returned _ _ _ _ tt) by now rewrite cache_call_run);
    rewrite cache_call_run; cbn [object device calls]; rewrite gl_run_app.
  - cbn [calls mret GL_ret gl_ret gl_run fold_left].
    apply (cache_store_stores c r). now apply cache_call_coherent.
  - apply IH. now apply cache_call_coherent.
Qed.

(** X1.  If the cache agrees with the device before a sequence of calls of
    [setBlend], [setDepthMode], [setDepthWrite] and [attachUBO], every call
    returns and the cache agrees with the device after the commands the
    sequence issued: suppressing a command never leaves the device behind
    the cache.  In particular the value the last call requested is the one
    in effect on the device. *)
Theorem X1_cache_stays_coherent :
  forall (cs : list CacheCall) (r : OpenGLRenderer) (d : Device) (s : DeviceState),
    coherent r s ->
    (outcome (cache_calls cs r d) = Returned tt
     ∧ coherent (object (cache_calls cs r d))
         (gl_run (calls (cache_calls cs r d)) s))
    ∧ forall c, in_effect c (gl_run (calls (cache_calls (cs ++ [c]) r d)) s).
Proof.
  intros cs r d s H. split; [now apply cache_calls_coherent|].
  intros c. now apply cache_calls_last_in_effect.
Qed.

(** X1 at the default cache: enabling additive blending, then depth writes,
    then any further call. *)
Lemma X1_cache_stays_coherent_witness :
  (outcome (cache_calls [CacheSetBlend BLEND_ADDITIVE; CacheSetDepthWrite true]
              OpenGLRenderer_default zero_device) = Returned tt
   ∧ coherent
       (object (cache_calls [CacheSetBlend BLEND_ADDITIVE; CacheSetDepthWrite true]
                  OpenGLRenderer_default zero_device))
       (gl_run
          (calls (cache_calls [CacheSetBlend BLEND_ADDITIVE; CacheSetDepthWrite true]
                    OpenGLRenderer_default zero_device))
          sample_device_state))
  ∧ forall c,
      in_effect c
        (gl_run
           (calls (cache_calls
                     ([CacheSetBlend BLEND_ADDITIVE; CacheSetDepthWrite true] ++ [c])
                     OpenGLRenderer_default zero_device))
           sample_device_state).
Proof.
  apply (X1_cache_stays_coherent
           [CacheSetBlend BLEND_ADDITIVE; CacheSetDepthWrite true]
           OpenGLRenderer_default zero_device sample_device_state).
  repeat split. intros H. now contradiction H.
Defined.

Lemma cache_store_twice c r : cache_store c (cache_store c r) = cache_store c r.
Proof. destruct c, r; reflexivity. Qed.

Lemma cache_emits_after_store c r : cache_emits c (cache_store c r) = [].
Proof.
  destruct c as [mode|mode|enable|buffer], r; cbn.
  - destruct mode; reflexivity.
  - destruct mode; reflexivity.
  - case_bool_decide; [congruence|reflexivity].
  - case_bool_decide; [congruence|reflexivity].
Qed.

(** X2.  A call of [setBlend], [setDepthMode], [setDepthWrite] or
    [attachUBO] that repeats the call before it does nothing: it issues no
    device command and leaves the renderer and the device as they are. *)
Theorem X2_repeated_call_is_a_no_op :
  forall (c : CacheCall) (r : OpenGLRenderer) (d d' : Device),
    cache_call c (object (cache_call c r d)) d' =
      mkRun (Returned tt) (object (cache_call c r d)) d' [].
Proof.
  intros c r d d'. rewrite !cache_call_run. cbn [object].
  now rewrite cache_store_twice, cache_emits_after_store.
Qed.

Lemma cache_store_commute a b r :
  slot_of a ≠ slot_of b ->
  cache_store b (cache_store a r) = cache_store a (cache_store b r).
Proof.
  intros H. destruct a, b; cbn in H; try congruence; destruct r; reflexivity.
Qed.

Lemma cache_emits_other_slot a b r :
  slot_of a ≠ slot_of b -> cache_emits b (cache_store a r) = cache_emits b r.
Proof.
  intros H. destruct a, b; cbn in H; try congruence; destruct r; reflexivity.
Qed.

(** X3.  Setters of different members do not interfere: the device commands
    a setter issues are the same whether or not the other one ran first,
    and both orders leave the same renderer. *)
Theorem X3_setters_of_different_members_commute :
  forall (a b : CacheCall) (r : OpenGLRenderer) (d1 d2 d3 d4 : Device),
    slot_of a ≠ slot_of b ->
    calls (cache_call b (object (cache_call a r d1)) d2) = calls (cache_call b r d3)
    ∧ calls (cache_call a (object (cache_call b r d3)) d4) = calls (cache_call a r d1)
    ∧ object (cache_call b (object (cache_call a r d1)) d2)
        = object (cache_call a (object (cache_call b r d3)) d4).
Proof.
  intros a b r d1 d2 d3 d4 Hslot. rewrite !cache_call_run. cbn [object calls].
  split; [now apply cache_emits_other_slot|].
  split; [apply cache_emits_other_slot; congruence|].
  now apply cache_store_commute.
Qed.

(** X3 at the default cache, for [setBlend(BLEND_ALPHA)] and [attachUBO(3)]. *)
Lemma X3_setters_of_different_members_commute_witness :
  calls (cache_call (CacheAttachUBO 3)
           (object (cache_call (CacheSetBlend BLEND_ALPHA)
                      OpenGLRenderer_default zero_device)) zero_device)
    = calls (cache_call (CacheAttachUBO 3) OpenGLRenderer_default zero_device)
  ∧ calls (cache_call (CacheSetBlend BLEND_ALPHA)
             (object (cache_call (CacheAttachUBO 3)
                        OpenGLRenderer_default zero_device)) zero_device)
      = calls (cache_call (CacheSetBlend BLEND_ALPHA)
                 OpenGLRenderer_default zero_device)
  ∧ object (cache_call (CacheAttachUBO 3)
              (object (cache_call (CacheSetBlend BLEND_ALPHA)
                         OpenGLRenderer_default zero_device)) zero_device)
      = object (cache_call (CacheSetBlend BLEND_ALPHA)
                  (object (cache_call (CacheAttachUBO 3)
                             OpenGLRenderer_default zero_device)) zero_device).
Proof.
  apply (X3_setters_of_different_members_commute
           (CacheSetBlend BLEND_ALPHA) (CacheAttachUBO 3)
           OpenGLRenderer_default zero_device zero_device zero_device zero_device).
  discriminate.
Defined.

(** ** Sequences of uniform lookups *)

(** X4.  Looking up a sequence of names that are C strings asks the device
    once for every distinct name that is not in the map yet, however often
    and in whatever order the names recur. *)
Theorem X4_one_query_per_new_name :
  forall (names : list string) (p : OpenGLShaderProgram) (d : Device),
    Forall is_c_string names ->
    length (calls (lookupAll names p d)) =
      size ((list_to_set names : gset string) ∖ dom (uniforms p)).
Proof.
  induction names as [|n names IH]; intros p d Hc.
  - cbn. now rewrite difference_disjoint_L, size_empty by set_solver.
  - inversion Hc as [|? ? Hn Hrest]; subst. cbn [lookupAll list_to_set].
    destruct (uniforms p !! n) as [v|] eqn:E.
    + assert (getUniformLocation n p d = mkRun (Returned v) p d []) as Hrun
        by (apply getUniformLocation_hit; now rewrite Hn).
      rewrite (bind_returned _ _ _ _ v) by now rewrite Hrun.
      rewrite Hrun. cbn [object device calls app]. rewrite (IH p d Hrest).
      f_equal. apply elem_of_dom_2 in E. set_solver.
    + pose proof (getUniformLocation_miss n p d ltac:(now rewrite Hn)) as Hrun.
      cbv zeta in Hrun.
      rewrite (bind_returned _ _ _ _
                 (respond d (served d)
                    (glGetUniformLocation (program p) (c_str n))))
        by now rewrite Hrun.
      rewrite Hrun. cbn [object device calls app length].
      rewrite (IH _ _ Hrest). cbn [uniforms]. rewrite dom_insert_L.
      apply not_elem_of_dom_2 in E.
      replace (({[n]} ∪ list_to_set names) ∖ dom (uniforms p))
        with ({[n]} ∪ (list_to_set names ∖ ({[n]} ∪ dom (uniforms p))) : gset string)
        by (apply set_eq; intros x; destruct (decide (x = n)); set_solver).
      pose proof (size_union (C := gset string) {[n]}
                    (list_to_set names ∖ ({[n]} ∪ dom (uniforms p)))) as Hsz.
      rewrite Hsz by set_solver.
      pose proof (size_singleton (C := gset string) n) as Hone.
      now rewrite Hone.
Qed.

(** X4 on a fresh program: [tex], [proj], [tex] cost two queries. *)
Lemma X4_one_query_per_new_name_witness :
  length (calls (lookupAll ["tex"; "proj"; "tex"]%string fresh_program
                   counting_device)) =
    size ((list_to_set ["tex"; "proj"; "tex"]%string : gset string)
            ∖ dom (uniforms fresh_program)).
Proof.
  apply (X4_one_query_per_new_name ["tex"; "proj"; "tex"]%string fresh_program
           counting_device).
  repeat constructor.
Defined.

(** X5.  Whatever names are looked up, C strings or not, every lookup
    returns; the program handle is never changed; no key is ever removed
    from the map; every device command issued is a uniform-location query
    for the program's own handle, at most one per lookup; and the device is
    asked exactly as often as a command is issued. *)
Theorem X5_lookups_only_add :
  forall (names : list string) (p : OpenGLShaderProgram) (d : Device),
    let run := lookupAll names p d in
    outcome run = Returned tt
    ∧ program (object run) = program p
    ∧ dom (uniforms p) ⊆ dom (uniforms (object run))
    ∧ Forall (is_location_query (program p)) (calls run)
    ∧ (length (calls run) ≤ length names)%nat
    ∧ served (device run) = (served d + length (calls run))%nat.
Proof.
  induction names as [|n names IH]; intros p d run; subst run.
  - cbn. split; [reflexivity|]. split; [reflexivity|]. split; [reflexivity|].
    split; [constructor|]. split; lia.
  - cbn [lookupAll].
    destruct (uniforms p !! c_str n) as [v|] eqn:E.
    + rewrite (bind_returned _ _ _ _ v)
        by now rewrite (getUniformLocation_hit _ _ _ _ E).
      rewrite (getUniformLocation_hit _ _ _ _ E).
      cbn [outcome object device calls app length].
      destruct (IH p d) as (Ho & Hp & Hd & Hq & Hl & Hs).
      split; [exact Ho|]. split; [exact Hp|]. split; [exact Hd|].
      split; [exact Hq|]. split; [lia|exact Hs].
    + pose proof (getUniformLocation_miss n p d E) as Hrun. cbv zeta in Hrun.
      rewrite (bind_returned _ _ _ _
                 (respond d (served d)
                    (glGetUniformLocation (program p) (c_str n))))
        by now rewrite Hrun.
      rewrite Hrun. cbn [outcome object device calls app length].
      match goal with
      | |- context [lookupAll names ?p' ?d'] =>
          destruct (IH p' d') as (Ho & Hp & Hd & Hq & Hl & Hs)
      end.
      cbn [program uniforms served] in Hp, Hd, Hq, Hs.
      rewrite dom_insert_L in Hd.
      split; [exact Ho|]. split; [exact Hp|]. split; [set_solver|].
      split; [constructor; [now exists (c_str n)|exact Hq]|]. split; lia.
Qed.

(** X6.  A name that is not a C string, looked up while the text before
    its NUL is not in the map, is stored under a key [find] never looks
    up: every one of [n] consecutive lookups of the name asks the device
    again. *)
Theorem X6_name_with_nul_asks_every_time :
  forall (name : string) (n : nat) (p : OpenGLShaderProgram) (d : Device),
    ¬ is_c_string name ->
    uniforms p !! c_str name = None ->
    let run := lookupAll (replicate n name) p d in
    calls run = replicate n (glGetUniformLocation (program p) (c_str name))
    ∧ uniforms (object run) !! c_str name = None.
Proof.
  intros name n. induction n as [|n IH]; intros p d Hc Hn run; subst run.
  - split; [reflexivity|exact Hn].
  - cbn [replicate lookupAll].
    pose proof (getUniformLocation_miss name p d Hn) as Hrun. cbv zeta in Hrun.
    rewrite (bind_returned _ _ _ _
               (respond d (served d)
                  (glGetUniformLocation (program p) (c_str name))))
      by now rewrite Hrun.
    rewrite Hrun. cbn [object device calls app].
    match goal with
    | |- context [lookupAll (replicate n name) ?p' ?d'] =>
        destruct (IH p' d' Hc) as [Hcalls Hstill]
    end.
    + cbn [uniforms]. rewrite lookup_insert_ne; [exact Hn|].
      intros E. apply Hc. unfold is_c_string. congruence.
    + split; [|exact Hstill]. rewrite Hcalls. reflexivity.
Qed.

(** X6 at the name [a], NUL, [b] on a fresh program, three times. *)
Lemma X6_name_with_nul_asks_every_time_witness :
  calls (lookupAll (replicate 3 name_with_nul) fresh_program counting_device)
    = replicate 3 (glGetUniformLocation (program fresh_program)
                     (c_str name_with_nul))
  ∧ uniforms (object (lookupAll (replicate 3 name_with_nul) fresh_program
                        counting_device)) !! c_str name_with_nul = None.
Proof.
  apply (X6_name_with_nul_asks_every_time name_with_nul 3 fresh_program
           counting_device).
  - unfold is_c_string. discriminate.
  - reflexivity.
Defined.

(** ** The statistics of [uploadUBO] *)

(** The statistics block, case by case on the depth. *)
Lemma profile_bump_cases g r d :
  profile_bump g r d =
    if bool_decide (currentDebugDepth r ≤ 0)%Z then mkRun (Returned tt) r d []
    else if bool_decide (currentDebugDepth r ≤ MAX_DEBUG_DEPTH)%Z then
      let j := Z.to_nat (currentDebugDepth r - 1) in
      mkRun (Returned tt)
        (set_profileInfo
           (<[j := g (default ProfileInfo_zero (profileInfo r !! j))]>
              (profileInfo r)) r) d []
    else mkRun (Aborted OutOfBounds) r d [].
Proof.
  destruct (decide (currentDebugDepth r ≤ 0)%Z) as [H0|H0].
  - rewrite (bool_decide_eq_true_2 _ H0).
    cbv [profile_bump mbind mret GL_bind GL_ret gl_bind gl_ret gets
         outcome object device calls].
    decide_false. reflexivity.
  - rewrite (bool_decide_eq_false_2 _ H0).
    destruct (decide (currentDebugDepth r ≤ MAX_DEBUG_DEPTH)%Z) as [H5|H5].
    + rewrite (bool_decide_eq_true_2 _ H5).
      cbv [profile_bump mbind mret GL_bind GL_ret gl_bind gl_ret gets
           outcome object device calls].
      decide_true.
      cbv [when profile_at profile_store abort mbind mret GL_bind GL_ret
           gl_bind gl_ret gets modify outcome object device calls].
      repeat (decide_true; cbn [outcome object device calls]). reflexivity.
    + rewrite (bool_decide_eq_false_2 _ H5).
      cbv [profile_bump mbind mret GL_bind GL_ret gl_bind gl_ret gets
           outcome object device calls].
      decide_true.
      cbv [when profile_at profile_store abort mbind mret GL_bind GL_ret
           gl_bind gl_ret gets modify outcome object device calls].
      repeat (decide_false; cbn [outcome object device calls]). reflexivity.
Qed.

(** X7.  [uploadUBO] issues the device commands of the upload it starts
    with and nothing else.  If the upload fails nothing is counted.  If it
    returns: with no scope open ([currentDebugDepth <= 0]) nothing is
    counted; with the depth in [1, MAX_DEBUG_DEPTH] the [uploads] counter of
    slot [currentDebugDepth - 1], and nothing else in the renderer, is
    incremented; with the depth above [MAX_DEBUG_DEPTH] the function indexes
    [profileInfo] outside its extent, since it checks the depth from below
    only. *)
Theorem X7_upload_statistics :
  forall (upload : GL OpenGLRenderer unit) (r : OpenGLRenderer) (d : Device),
    let first := upload r d in
    let run := uploadUBO_via upload r d in
    let k := currentDebugDepth (object first) in
    (forall buffer data,
       uploadUBO buffer data
       = uploadUBO_via (uploadUBOEntry buffer data (N.of_nat (length data))))
    ∧ calls run = calls first
    ∧ device run = device first
    ∧ match outcome first with
      | Aborted f => outcome run = Aborted f ∧ object run = object first
      | Returned _ =>
          if bool_decide (k ≤ 0)%Z then
            outcome run = Returned tt ∧ object run = object first
          else if bool_decide (k ≤ MAX_DEBUG_DEPTH)%Z then
            outcome run = Returned tt
            ∧ object run =
                set_profileInfo
                  (count_upload (Z.to_nat (k - 1)) (profileInfo (object first)))
                  (object first)
          else outcome run = Aborted OutOfBounds ∧ object run = object first
      end.
Proof.
  intros upload r d first run k. split; [reflexivity|].
  subst run k first.
  change (uploadUBO_via upload) with
    (upload;; profile_bump (fun p => set_uploads (uint_incr (uploads p)) p)).
  rewrite bind_unfold. unfold gl_bind.
  destruct (upload r d) as [[a|f] r1 d1 cs]; cbn [outcome object device calls];
    [|repeat split].
  rewrite profile_bump_cases.
  repeat case_bool_decide; cbn [outcome object device calls];
    rewrite ?app_nil_r; repeat split.
Qed.

Lemma uploadUBO_via_step upload r d :
  (∃ a, outcome (upload r d) = Returned a) ->
  scope_view (object (upload r d)) = scope_view r ->
  profiling_ok r ->
  ∃ r' d' cs,
    uploadUBO_via upload r d = mkRun (Returned tt) r' d' cs
    ∧ r' = set_profileInfo (profileInfo r') (object (upload r d))
    ∧ currentDebugDepth r' = currentDebugDepth r
    ∧ profileInfo r' =
        match Z.to_nat (currentDebugDepth r) with
        | O => profileInfo r
        | Datatypes.S j => count_upload j (profileInfo r)
        end.
Proof.
  intros [a Ha] Hv [Hlen [H0 H5]].
  change (uploadUBO_via upload) with
    (upload;; profile_bump (fun p => set_uploads (uint_incr (uploads p)) p)).
  rewrite (bind_returned _ _ _ _ a Ha). cbv zeta.
  unfold scope_view in Hv. injection Hv as Hi Hd.
  rewrite profile_bump_cases. rewrite Hd, Hi.
  case_bool_decide as Hk.
  - eexists _, _, _. split; [reflexivity|]. cbn [outcome object].
    split; [now destruct (object (upload r d))|].
    split; [exact Hd|]. rewrite Hi.
    replace (currentDebugDepth r) with 0%Z by lia. reflexivity.
  - rewrite bool_decide_eq_true_2 by exact H5. cbv zeta.
    eexists _, _, _. split; [reflexivity|].
    destruct (object (upload r d)); cbn in *.
    split; [reflexivity|]. split; [exact Hd|].
    destruct (Z.to_nat (currentDebugDepth r)) as [|j] eqn:E; [lia|].
    replace (Z.to_nat (currentDebugDepth r - 1)) with j by lia.
    reflexivity.
Qed.

(** The upload of the specification's [uploadUBOEntry] returns wherever the
    block fits a slot, and touches neither the profiling members nor the
    slot size. *)
Lemma uploadUBOEntry_succeeds buffer data size :
  upload_succeeds (slot_holds buffer size) (uploadUBOEntry buffer data size).
Proof.
  intros r d Hr. unfold slot_holds in *.
  rewrite (uploadUBOEntry_fits buffer data size r d Hr). cbv zeta.
  cbn [outcome object]. split; [now exists tt|].
  destruct buffer, r; cbn in *; (split; [reflexivity|exact Hr]).
Qed.

Lemma slot_holds_apart buffer size :
  apart_from_statistics (slot_holds buffer size).
Proof. intros r infos Hr. now destruct buffer, r. Qed.

Lemma count_upload_again n j (infos : list ProfileInfo) :
  (j < length infos)%nat ->
  count_uploads n (Datatypes.S j) (count_upload j infos)
  = count_uploads (Datatypes.S n) (Datatypes.S j) infos.
Proof.
  intros Hj. unfold count_uploads, count_upload. cbv zeta.
  rewrite list_lookup_insert_eq by exact Hj. rewrite list_insert_insert_eq.
  destruct (lookup_lt_is_Some_2 infos j Hj) as [p Hp]. rewrite Hp.
  cbn [default]. rewrite Nat.iter_succ_r. destruct p. reflexivity.
Qed.

(** X8.  [n] calls of [uploadUBO] in a row, from a renderer that satisfies
    a condition [I] under which the upload returns, leaves the profiling
    members alone and keeps [I] (for [uploadUBOEntry]: the block fits a
    slot of the buffer), all return, keep the depth and [I], and advance
    the [uploads] counter of the innermost open scope by [n] increments of
    an [unsigned int]; the slots of all other scopes, and the other
    counters of that slot, are as they were.  With no scope open nothing is
    counted. *)
Theorem X8_uploads_counted_in_innermost_scope :
  forall (I : OpenGLRenderer -> Prop) (upload : GL OpenGLRenderer unit)
         (n : nat) (r : OpenGLRenderer) (d : Device),
    upload_succeeds I upload -> apart_from_statistics I ->
    I r -> profiling_ok r ->
    let run := upload_times n upload r d in
    outcome run = Returned tt
    ∧ I (object run)
    ∧ currentDebugDepth (object run) = currentDebugDepth r
    ∧ profileInfo (object run)
        = count_uploads n (Z.to_nat (currentDebugDepth r)) (profileInfo r).
Proof.
  intros I upload n.
  induction n as [|n IH]; intros r d Hu Ha Hr Hok run; subst run.
  - cbn [upload_times]. split; [reflexivity|]. split; [exact Hr|].
    split; [reflexivity|].
    cbn [object mret GL_ret gl_ret]. unfold count_uploads.
    destruct (Z.to_nat (currentDebugDepth r)) as [|j] eqn:E; [reflexivity|].
    cbv zeta. cbn [Nat.iter nat_rect]. symmetry. apply list_insert_id.
    destruct Hok as [Hlen [H0 H5]]. unfold MAX_DEBUG_DEPTH in *.
    destruct (lookup_lt_is_Some_2 (profileInfo r) j) as [p Hq]; [lia|].
    rewrite Hq. cbn [default]. now destruct p.
  - cbn [upload_times].
    destruct (Hu r d Hr) as (Hret & Hview & Hkeep).
    destruct (uploadUBO_via_step upload r d Hret Hview Hok)
      as (r' & d' & cs & E & Hr' & Hd & Hi).
    rewrite (bind_returned _ _ _ _ tt) by now rewrite E.
    rewrite E. cbn [outcome object device calls].
    assert (profiling_ok r') as Hok'.
    { destruct Hok as [Hlen Hb]. split; [|now rewrite Hd]. rewrite Hi.
      destruct (Z.to_nat (currentDebugDepth r)); [exact Hlen|].
      unfold count_upload. now rewrite length_insert. }
    assert (I r') as HI' by (rewrite Hr'; now apply Ha).
    destruct (IH r' d' Hu Ha HI' Hok') as (Ho & HIo & Hd' & Hi').
    split; [exact Ho|]. split; [exact HIo|]. split; [congruence|].
    rewrite Hi', Hd, Hi.
    destruct (Z.to_nat (currentDebugDepth r)) as [|j] eqn:E'; [reflexivity|].
    apply count_upload_again.
    destruct Hok as [Hlen [H0 H5]]. unfold MAX_DEBUG_DEPTH in *. lia.
Qed.

(** X8 for three uploads of four bytes into the scene buffer inside two
    open scopes: slot 1 counts three. *)
Lemma X8_uploads_counted_in_innermost_scope_witness :
  outcome (upload_times 3 (uploadUBOEntry RefUBOScene (zeros 4) 4)
             renderer_at_depth_two zero_device) = Returned tt
  ∧ slot_holds RefUBOScene 4
      (object (upload_times 3 (uploadUBOEntry RefUBOScene (zeros 4) 4)
                 renderer_at_depth_two zero_device))
  ∧ currentDebugDepth
      (object (upload_times 3 (uploadUBOEntry RefUBOScene (zeros 4) 4)
                 renderer_at_depth_two zero_device))
      = currentDebugDepth renderer_at_depth_two
  ∧ profileInfo
      (object (upload_times 3 (uploadUBOEntry RefUBOScene (zeros 4) 4)
                 renderer_at_depth_two zero_device))
      = count_uploads 3 (Z.to_nat (currentDebugDepth renderer_at_depth_two))
          (profileInfo renderer_at_depth_two).
Proof.
  apply (X8_uploads_counted_in_innermost_scope
           (slot_holds RefUBOScene 4) (uploadUBOEntry RefUBOScene (zeros 4) 4)
           3 renderer_at_depth_two zero_device).
  - apply uploadUBOEntry_succeeds.
  - apply slot_holds_apart.
  - vm_compute. discriminate.
  - split; [reflexivity|]. vm_compute. split; discriminate.
Defined.
